(** * The Aspeed watchdog driver (drivers/watchdog/aspeed_wdt.c)

    A shallow embedding of the driver's register-level control logic:
    the device structure with its cached control word, the memory-mapped
    register block, the five watchdog operations and the probe routine.
    Every function below is a transcription of the C function of the same
    name; C's [u32] and [int] values are integers with the wrap-around
    written out where the C types make one happen. *)

From Stdlib Require Import ZArith Lia List String Ascii Bool.
From stdpp Require Import gmap strings.

Local Open Scope string_scope.
Local Open Scope list_scope.
Local Open Scope Z_scope.

(** ** Machine integers *)

(** Conversion to [u32] / [unsigned int]: reduction modulo 2^32. *)
Definition u32 (z : Z) : Z := z mod 2 ^ 32.

(** Conversion to [int]: the two's complement representative. *)
Definition int32 (z : Z) : Z := (z + 2 ^ 31) mod 2 ^ 32 - 2 ^ 31.

(** [BIT(nr)] of linux/bitops.h. *)
Definition BIT (nr : Z) : Z := Z.shiftl 1 nr.

(** [min] on two values of the same unsigned type. *)
Definition min (a b : Z) : Z := if a <? b then a else b.

(** ** Register offsets and constants (lines 33-59 of the source) *)

Definition WDT_STATUS : Z := 0x00.
Definition WDT_RELOAD_VALUE : Z := 0x04.
Definition WDT_RESTART : Z := 0x08.
Definition WDT_CTRL : Z := 0x0C.
Definition WDT_CTRL_RESET_MODE_SOC : Z := Z.shiftl 0x00 5.
Definition WDT_CTRL_RESET_MODE_FULL_CHIP : Z := Z.shiftl 0x01 5.
Definition WDT_CTRL_RESET_MODE_ARM_CPU : Z := Z.shiftl 0x10 5.
Definition WDT_CTRL_1MHZ_CLK : Z := BIT 4.
Definition WDT_CTRL_WDT_EXT : Z := BIT 3.
Definition WDT_CTRL_WDT_INTR : Z := BIT 2.
Definition WDT_CTRL_RESET_SYSTEM : Z := BIT 1.
Definition WDT_CTRL_ENABLE : Z := BIT 0.
Definition WDT_RESET_WIDTH : Z := 0x18.
Definition WDT_RESET_WIDTH_ACTIVE_HIGH : Z := BIT 31.
Definition WDT_ACTIVE_HIGH_MAGIC : Z := u32 (Z.shiftl 0xA5 24).
Definition WDT_ACTIVE_LOW_MAGIC : Z := u32 (Z.shiftl 0x5A 24).
Definition WDT_RESET_WIDTH_PUSH_PULL : Z := BIT 30.
Definition WDT_PUSH_PULL_MAGIC : Z := u32 (Z.shiftl 0xA8 24).
Definition WDT_OPEN_DRAIN_MAGIC : Z := u32 (Z.shiftl 0x8A 24).
Definition WDT_RESET_WIDTH_DURATION : Z := 0xFFF.

Definition WDT_RESTART_MAGIC : Z := 0x4755.

(** 32 bits at 1MHz, in milliseconds *)
Definition WDT_MAX_TIMEOUT_MS : Z := 4294967.
Definition WDT_DEFAULT_TIMEOUT : Z := 30.
Definition WDT_RATE_1MHZ : Z := 1000000.

(** Error numbers of errno-base.h, as the probe routine returns them. *)
Definition ENOMEM : Z := 12.
Definition EINVAL : Z := 22.

(** ** Device state *)

(** The fields of [struct watchdog_device] the driver reads or writes.
    [hw_running] is the [WDOG_HW_RUNNING] bit of the [status] word. *)
Record watchdog_device := mk_wdd {
  timeout : Z;
  max_hw_heartbeat_ms : Z;
  hw_running : bool
}.

Record aspeed_wdt := mk_wdt {
  wdd : watchdog_device;
  base : Z;
  ctrl : Z
}.

(** What the driver does to the outside world, in program order. *)
Inductive event :=
| EvWritel (val addr : Z)
| EvMdelay (ms : Z).

(** The driver's structure, the register block as a map from bus address
    to the 32-bit value last stored there, the events so far, and whether
    the device has been handed to the watchdog core. *)
Record machine := mk_machine {
  wdt : aspeed_wdt;
  io : gmap Z Z;
  trace : list event;
  registered : bool
}.

(** ** A state monad over [machine] *)

Definition M (A : Type) : Type := machine -> A * machine.

Definition ret {A} (a : A) : M A := fun m => (a, m).

Definition bind {A B} (c : M A) (k : A -> M B) : M B :=
  fun m => let (a, m') := c m in k a m'.

Declare Scope wdt_scope.
Delimit Scope wdt_scope with wdt.
Notation "x <- c ;; k" := (bind c (fun x => k))
  (at level 100, c at next level, right associativity) : wdt_scope.
Notation "c ;; k" := (bind c (fun _ => k))
  (at level 100, right associativity) : wdt_scope.
Local Open Scope wdt_scope.

Definition exec {A} (c : M A) (m : machine) : machine := snd (c m).
Definition eval {A} (c : M A) (m : machine) : A := fst (c m).

(** Field access and assignment on the driver structure. *)
Definition get_timeout : M Z := fun m => (timeout (wdd (wdt m)), m).
Definition get_max_hw_heartbeat_ms : M Z :=
  fun m => (max_hw_heartbeat_ms (wdd (wdt m)), m).
Definition get_base : M Z := fun m => (base (wdt m), m).
Definition get_ctrl : M Z := fun m => (ctrl (wdt m), m).

Definition with_wdt (f : aspeed_wdt -> aspeed_wdt) : M unit :=
  fun m => (tt, mk_machine (f (wdt m)) (io m) (trace m) (registered m)).

Definition set_ctrl (c : Z) : M unit :=
  with_wdt (fun w => mk_wdt (wdd w) (base w) c).
Definition set_base (b : Z) : M unit :=
  with_wdt (fun w => mk_wdt (wdd w) b (ctrl w)).
Definition set_timeout (t : Z) : M unit :=
  with_wdt (fun w =>
    mk_wdt (mk_wdd t (max_hw_heartbeat_ms (wdd w)) (hw_running (wdd w)))
           (base w) (ctrl w)).
Definition set_max_hw_heartbeat_ms (v : Z) : M unit :=
  with_wdt (fun w =>
    mk_wdt (mk_wdd (timeout (wdd w)) v (hw_running (wdd w)))
           (base w) (ctrl w)).
Definition set_hw_running : M unit :=
  with_wdt (fun w =>
    mk_wdt (mk_wdd (timeout (wdd w)) (max_hw_heartbeat_ms (wdd w)) true)
           (base w) (ctrl w)).

(** ** Register access and delay primitives *)

(** [writel(val, addr)]: store a 32-bit value at a bus address. *)
Definition writel (val addr : Z) : M unit :=
  fun m => (tt, mk_machine (wdt m) (<[addr := val]> (io m))
                           (trace m ++ [EvWritel val addr]) (registered m)).

(** [readl(addr)]: the value held at a bus address (0 if never set). *)
Definition reg (regs : gmap Z Z) (addr : Z) : Z := default 0 (regs !! addr).
Definition readl (addr : Z) : M Z := fun m => (reg (io m) addr, m).

(** [mdelay(ms)]: a blocking delay, recorded in the trace. *)
Definition mdelay (ms : Z) : M unit :=
  fun m => (tt, mk_machine (wdt m) (io m) (trace m ++ [EvMdelay ms])
                           (registered m)).

(** ** The watchdog operations *)

(** Lines 66-74.  [count] is an [int]; [writel] takes a [u32]. *)
Definition aspeed_wdt_enable (count : Z) : M unit :=
  c <- get_ctrl ;;
  set_ctrl (Z.lor c WDT_CTRL_ENABLE) ;;
  b <- get_base ;;
  writel 0 (b + WDT_CTRL) ;;
  writel (u32 count) (b + WDT_RELOAD_VALUE) ;;
  writel WDT_RESTART_MAGIC (b + WDT_RESTART) ;;
  c' <- get_ctrl ;;
  writel c' (b + WDT_CTRL).

(** Lines 76-83.  The product is an [unsigned int], passed as an [int]. *)
Definition aspeed_wdt_start : M Z :=
  t <- get_timeout ;;
  aspeed_wdt_enable (int32 (u32 (t * WDT_RATE_1MHZ))) ;;
  ret 0.

(** Lines 85-93. *)
Definition aspeed_wdt_stop : M Z :=
  c <- get_ctrl ;;
  set_ctrl (Z.land c (Z.lnot WDT_CTRL_ENABLE)) ;;
  c' <- get_ctrl ;;
  b <- get_base ;;
  writel c' (b + WDT_CTRL) ;;
  ret 0.

(** Lines 95-102. *)
Definition aspeed_wdt_ping : M Z :=
  b <- get_base ;;
  writel WDT_RESTART_MAGIC (b + WDT_RESTART) ;;
  ret 0.

(** Lines 104-118.  [timeout] and [max_hw_heartbeat_ms] are
    [unsigned int]; so are both products. *)
Definition aspeed_wdt_set_timeout (timeout : Z) : M Z :=
  set_timeout timeout ;;
  mx <- get_max_hw_heartbeat_ms ;;
  let actual := min timeout (u32 (mx * 1000)) in
  b <- get_base ;;
  writel (u32 (actual * WDT_RATE_1MHZ)) (b + WDT_RELOAD_VALUE) ;;
  writel WDT_RESTART_MAGIC (b + WDT_RESTART) ;;
  ret 0.

(** Lines 120-130.  [action] and [data] are not looked at; the count is
    computed in [int]. *)
Definition aspeed_wdt_restart (action data : Z) : M Z :=
  aspeed_wdt_enable (int32 (Z.quot (int32 (128 * WDT_RATE_1MHZ)) 1000)) ;;
  mdelay 1000 ;;
  ret 0.

(** ** Probe-time inputs *)

(** [strcmp]: negative, zero or positive as [cs] sorts before, equal to or
    after [ct]. *)
Definition strcmp (cs ct : string) : Z :=
  match String.compare cs ct with
  | Eq => 0
  | Lt => -1
  | Gt => 1
  end.

(** The device-tree node of the watchdog, as the probe routine sees it:
    one field per query the routine makes.
    - [aspeed_reset_type]: [of_property_read_string] on "aspeed,reset-type",
      [None] when the call reports an error;
    - [aspeed_external_signal], [aspeed_ext_push_pull] and
      [aspeed_ext_active_high]: [of_property_read_bool] on the properties
      of these names;
    - [compatible_ast2500]: [of_device_is_compatible] with
      "aspeed,ast2500-wdt";
    - [aspeed_ext_pulse_duration]: [of_property_read_u32] on
      "aspeed,ext-pulse-duration", [None] when the call reports an error. *)
Record device_node := mk_node {
  aspeed_reset_type : option string;
  aspeed_external_signal : bool;
  compatible_ast2500 : bool;
  aspeed_ext_push_pull : bool;
  aspeed_ext_active_high : bool;
  aspeed_ext_pulse_duration : option Z
}.

(** The platform device, with the outcome of each service the probe
    routine asks of the kernel:
    - [devm_kzalloc_ok]: the allocation of the driver structure succeeded;
    - [devm_ioremap_resource]: the mapped register base, or the error code
      carried by the error pointer;
    - [watchdog_init_timeout]: the timeout the watchdog core installs in
      place of the driver's default, if it installs one;
    - [watchdog_register_device]: the core's return code. *)
Record platform_device := mk_pdev {
  of_node : device_node;
  devm_kzalloc_ok : bool;
  devm_ioremap_resource : Z + Z;
  watchdog_init_timeout : option Z;
  watchdog_register_device : Z
}.

(** [wdt->ctrl |= bits]. *)
Definition or_ctrl (bits : Z) : M unit :=
  c <- get_ctrl ;; set_ctrl (Z.lor c bits).

Definition set_registered : M unit :=
  fun m => (tt, mk_machine (wdt m) (io m) (trace m) true).

(** The zero-filled structure [devm_kzalloc] hands out, next to the
    register block as the firmware left it. *)
Definition kzalloc_machine (regs : gmap Z Z) : machine :=
  mk_machine (mk_wdt (mk_wdd 0 0 false) 0 0) regs [] false.

(** ** The probe routine (lines 157-262) *)

(** Lines 194-205: the reset type of the device tree, into [wdt->ctrl]. *)
Definition probe_reset_type (np : device_node) : M unit :=
  match aspeed_reset_type np with
  | None => or_ctrl WDT_CTRL_RESET_SYSTEM
  | Some reset_type =>
      if strcmp reset_type "cpu" =? 0 then
        or_ctrl WDT_CTRL_RESET_MODE_ARM_CPU
      else if strcmp reset_type "soc" =? 0 then
        or_ctrl WDT_CTRL_RESET_MODE_SOC
      else if strcmp reset_type "system" =? 0 then
        or_ctrl WDT_CTRL_RESET_SYSTEM
      else ret tt
  end.

(** Lines 220-238: drive mode and polarity of the external reset pulse. *)
Definition probe_reset_width (np : device_node) (b : Z) : M unit :=
  if compatible_ast2500 np then
    r <- readl (b + WDT_RESET_WIDTH) ;;
    let r := Z.land r WDT_RESET_WIDTH_DURATION in
    let r := Z.lor r (if aspeed_ext_push_pull np
                      then WDT_PUSH_PULL_MAGIC else WDT_OPEN_DRAIN_MAGIC) in
    writel r (b + WDT_RESET_WIDTH) ;;
    let r := Z.land r WDT_RESET_WIDTH_DURATION in
    let r := Z.lor r (if aspeed_ext_active_high np
                      then WDT_ACTIVE_HIGH_MAGIC else WDT_ACTIVE_LOW_MAGIC) in
    writel r (b + WDT_RESET_WIDTH)
  else ret tt.

(** Lines 240-251: the explicit pulse duration; [Some e] is an early
    [return e]. *)
Definition probe_pulse_duration (np : device_node) (b : Z) : M (option Z) :=
  match aspeed_ext_pulse_duration np with
  | Some duration =>
      if duration >? WDT_RESET_WIDTH_DURATION then ret (Some (- EINVAL))
      else writel duration (b + WDT_RESET_WIDTH) ;; ret None
  | None => ret None
  end.

(** Lines 253-261: registration with the watchdog core. *)
Definition probe_register (pdev : platform_device) : M Z :=
  let r := watchdog_register_device pdev in
  if negb (r =? 0) then ret r
  else set_registered ;; ret 0.

Definition aspeed_wdt_probe (pdev : platform_device) : M Z :=
  if negb (devm_kzalloc_ok pdev) then ret (- ENOMEM) else
  match devm_ioremap_resource pdev with
  | inr err => ret err
  | inl b =>
      set_base b ;;
      set_max_hw_heartbeat_ms WDT_MAX_TIMEOUT_MS ;;
      set_timeout WDT_DEFAULT_TIMEOUT ;;
      match watchdog_init_timeout pdev with
      | Some t => set_timeout t
      | None => ret tt
      end ;;
      set_ctrl WDT_CTRL_1MHZ_CLK ;;
      let np := of_node pdev in
      probe_reset_type np ;;
      (if aspeed_external_signal np then or_ctrl WDT_CTRL_WDT_EXT
       else ret tt) ;;
      v <- readl (b + WDT_CTRL) ;;
      (if negb (Z.land v WDT_CTRL_ENABLE =? 0) then
         aspeed_wdt_start ;; set_hw_running
       else ret tt) ;;
      probe_reset_width np b ;;
      e <- probe_pulse_duration np b ;;
      match e with
      | Some err => ret err
      | None => probe_register pdev
      end
  end.

(** Running the probe routine on a freshly allocated structure. *)
Definition probe (pdev : platform_device) (regs : gmap Z Z) : Z * machine :=
  aspeed_wdt_probe pdev (kzalloc_machine regs).

(** ** The operations table (lines 132-139) *)

(** One constructor per entry of [aspeed_wdt_ops], with the arguments the
    watchdog core passes along. *)
Inductive wdt_op :=
| OpStart
| OpStop
| OpPing
| OpSetTimeout (timeout : Z)
| OpRestart (action data : Z).

(** The call the core makes through the table. *)
Definition aspeed_wdt_ops (o : wdt_op) : M Z :=
  match o with
  | OpStart => aspeed_wdt_start
  | OpStop => aspeed_wdt_stop
  | OpPing => aspeed_wdt_ping
  | OpSetTimeout timeout => aspeed_wdt_set_timeout timeout
  | OpRestart action data => aspeed_wdt_restart action data
  end.

(** A sequence of calls, one after the other (the core serialises them). *)
Definition run_ops (ops : list wdt_op) (m : machine) : machine :=
  fold_left (fun m o => exec (aspeed_wdt_ops o) m) ops m.

(** * Notions the statements are written with *)

(** ** Flags and fields of the control word *)

(** A flag of a word: some bit of the mask is set in it. *)
Definition flag (bit c : Z) : bool := negb (Z.land c bit =? 0).

(** The enable flag of a control word, as line 209 tests it. *)
Definition enabled (c : Z) : bool := negb (Z.land c WDT_CTRL_ENABLE =? 0).

(** The reset-mode field of a control word, as wide as the three mode
    constants make it, and the system-reset flag next to it. *)
Definition reset_mode (c : Z) : Z :=
  Z.land c (Z.lor (Z.lor WDT_CTRL_RESET_MODE_SOC WDT_CTRL_RESET_MODE_FULL_CHIP)
                  WDT_CTRL_RESET_MODE_ARM_CPU).

Definition system_reset (c : Z) : bool := flag WDT_CTRL_RESET_SYSTEM c.

(** ** The cached timeout *)

(** A timeout the hardware can count: at least one second, at most the
    whole seconds of the heartbeat limit (4294). *)
Definition timeout_ok (t : Z) : Prop := 1 <= t <= WDT_MAX_TIMEOUT_MS / 1000.

Definition cached_timeout (m : machine) : Z := timeout (wdd (wdt m)).

(** ** The probe routine, block by block *)

(** The bits lines 194-205 or into the control word. *)
Definition reset_type_bits (rt : option string) : Z :=
  match rt with
  | None => WDT_CTRL_RESET_SYSTEM
  | Some s =>
      if String.eqb s "cpu" then WDT_CTRL_RESET_MODE_ARM_CPU
      else if String.eqb s "soc" then WDT_CTRL_RESET_MODE_SOC
      else if String.eqb s "system" then WDT_CTRL_RESET_SYSTEM
      else 0
  end.

(** The control word the probe routine assembles from the device tree. *)
Definition probe_ctrl (np : device_node) : Z :=
  Z.lor (Z.lor WDT_CTRL_1MHZ_CLK (reset_type_bits (aspeed_reset_type np)))
        (if aspeed_external_signal np then WDT_CTRL_WDT_EXT else 0).

(** The timeout in force once the watchdog core has had its say. *)
Definition probe_timeout (pdev : platform_device) : Z :=
  match watchdog_init_timeout pdev with
  | Some t => t
  | None => WDT_DEFAULT_TIMEOUT
  end.

(** The stores of lines 209-218, given the control register as found. *)
Definition adoption_writes (pdev : platform_device) (b live : Z) : list event :=
  if enabled live then
    [EvWritel 0 (b + WDT_CTRL);
     EvWritel (u32 (probe_timeout pdev * WDT_RATE_1MHZ)) (b + WDT_RELOAD_VALUE);
     EvWritel WDT_RESTART_MAGIC (b + WDT_RESTART);
     EvWritel (Z.lor (probe_ctrl (of_node pdev)) WDT_CTRL_ENABLE) (b + WDT_CTRL)]
  else [].

(** The magic values lines 224-227 and 232-235 pick, and their tag bytes. *)
Definition drive_magic (np : device_node) : Z :=
  if aspeed_ext_push_pull np then WDT_PUSH_PULL_MAGIC else WDT_OPEN_DRAIN_MAGIC.

Definition polarity_magic (np : device_node) : Z :=
  if aspeed_ext_active_high np then WDT_ACTIVE_HIGH_MAGIC
  else WDT_ACTIVE_LOW_MAGIC.

Definition drive_tag (np : device_node) : Z :=
  if aspeed_ext_push_pull np then 0xA8 else 0x8A.

Definition polarity_tag (np : device_node) : Z :=
  if aspeed_ext_active_high np then 0xA5 else 0x5A.

(** The stores of lines 220-238, given the pulse register as found. *)
Definition reset_width_writes (np : device_node) (b width : Z) : list event :=
  if compatible_ast2500 np then
    let d := Z.land width WDT_RESET_WIDTH_DURATION in
    [EvWritel (Z.lor d (drive_magic np)) (b + WDT_RESET_WIDTH);
     EvWritel (Z.lor d (polarity_magic np)) (b + WDT_RESET_WIDTH)]
  else [].

(** The store of lines 240-251, and whether line 241 refuses the value. *)
Definition duration_writes (np : device_node) (b : Z) : list event :=
  match aspeed_ext_pulse_duration np with
  | Some d => if d >? WDT_RESET_WIDTH_DURATION then []
              else [EvWritel d (b + WDT_RESET_WIDTH)]
  | None => []
  end.

Definition duration_rejected (np : device_node) : bool :=
  match aspeed_ext_pulse_duration np with
  | Some d => d >? WDT_RESET_WIDTH_DURATION
  | None => false
  end.

(** All stores of a probe that got its memory and its registers. *)
Definition probe_events (pdev : platform_device) (b : Z) (regs : gmap Z Z)
  : list event :=
  adoption_writes pdev b (reg regs (b + WDT_CTRL))
  ++ reset_width_writes (of_node pdev) b (reg regs (b + WDT_RESET_WIDTH))
  ++ duration_writes (of_node pdev) b.

(** ** Events and registers *)

(** The register block after a sequence of events. *)
Definition apply_event (regs : gmap Z Z) (e : event) : gmap Z Z :=
  match e with
  | EvWritel v a => <[a := v]> regs
  | EvMdelay _ => regs
  end.

Definition apply_events (tr : list event) (regs : gmap Z Z) : gmap Z Z :=
  fold_left apply_event tr regs.

(** The event is a store to address [a]. *)
Definition writes_to (a : Z) (e : event) : Prop :=
  match e with
  | EvWritel _ a' => a' = a
  | EvMdelay _ => False
  end.

(** ** Platform devices to vary and to run *)

(** The same platform device with another answer for "aspeed,reset-type". *)
Definition with_reset_type (pdev : platform_device) (rt : option string)
  : platform_device :=
  let np := of_node pdev in
  mk_pdev (mk_node rt (aspeed_external_signal np) (compatible_ast2500 np)
                   (aspeed_ext_push_pull np) (aspeed_ext_active_high np)
                   (aspeed_ext_pulse_duration np))
          (devm_kzalloc_ok pdev) (devm_ioremap_resource pdev)
          (watchdog_init_timeout pdev) (watchdog_register_device pdev).

(** The first watchdog of an AST2500 at its bus address, and a register
    block in which the boot loader has left it armed. *)
Definition ast2500_node : device_node :=
  mk_node (Some "cpu") true true true false None.

Definition ast2500_pdev : platform_device :=
  mk_pdev ast2500_node true (inl 0x1e785000) None 0.

Definition firmware_regs : gmap Z Z :=
  <[0x1e785000 + WDT_RESET_WIDTH := 0xFF]>
    (<[0x1e785000 + WDT_CTRL := 0x13]> ∅).

(** A watchdog of the older variant whose node carries an explicit pulse
    duration. *)
Definition ast2400_pdev (duration : Z) : platform_device :=
  mk_pdev (mk_node None false false false false (Some duration))
          true (inl 0x1e785000) None 0.

(** ** What a trace may and may not contain *)

(** Every store to the reload register at base [b] is followed at once by a
    store of the restart magic to the restart register. *)
Fixpoint reload_latched (b : Z) (tr : list event) : bool :=
  match tr with
  | [] => true
  | EvWritel _ a :: rest =>
      if a =? b + WDT_RELOAD_VALUE then
        match rest with
        | EvWritel v' a' :: _ =>
            (a' =? b + WDT_RESTART) && (v' =? WDT_RESTART_MAGIC)
            && reload_latched b rest
        | _ => false
        end
      else reload_latched b rest
  | EvMdelay _ :: rest => reload_latched b rest
  end.

(** The event is a store to the reload, control or pulse register, a store
    of the restart magic to the restart register, or a delay of 1000 ms. *)
Definition driver_event (b : Z) (e : event) : Prop :=
  match e with
  | EvWritel v a =>
      a = b + WDT_RELOAD_VALUE \/ a = b + WDT_CTRL \/ a = b + WDT_RESET_WIDTH
      \/ (a = b + WDT_RESTART /\ v = WDT_RESTART_MAGIC)
  | EvMdelay ms => ms = 1000
  end.

(** The event stores a value that fits the 32-bit register. *)
Definition stores_u32 (e : event) : Prop :=
  match e with
  | EvWritel v _ => 0 <= v < 2 ^ 32
  | EvMdelay _ => True
  end.

(** The control register at the driver's base agrees with the cached word
    on the enable flag; and agrees with it altogether. *)
Definition enable_agrees (m : machine) : Prop :=
  enabled (reg (io m) (base (wdt m) + WDT_CTRL)) = enabled (ctrl (wdt m)).

Definition ctrl_coherent (m : machine) : Prop :=
  reg (io m) (base (wdt m) + WDT_CTRL) = ctrl (wdt m).

(** * Properties *)

(** ** Machine integers *)

Lemma u32_range z : 0 <= u32 z < 2 ^ 32.
Proof. unfold u32. apply Z.mod_pos_bound. lia. Qed.

Lemma u32_small z : 0 <= z < 2 ^ 32 -> u32 z = z.
Proof. intros H. unfold u32. now apply Z.mod_small. Qed.

(** An [unsigned int] passed through an [int] parameter and back to a
    [u32] is unchanged. *)
Lemma u32_int32 z : u32 (int32 z) = u32 z.
Proof.
  unfold u32, int32.
  rewrite Zminus_mod, Zmod_mod, <- Zminus_mod.
  f_equal. lia.
Qed.

Lemma u32_idem z : u32 (u32 z) = u32 z.
Proof. unfold u32. apply Zmod_mod. Qed.

(** The count [aspeed_wdt_restart] passes on: 128 ms at 1 MHz. *)
Lemma restart_count :
  u32 (int32 (Z.quot (int32 (128 * WDT_RATE_1MHZ)) 1000)) = 128000.
Proof. reflexivity. Qed.

(** ** What each operation does to the machine *)

Ltac run :=
  cbv beta iota zeta delta
    [exec eval bind ret set_ctrl set_base set_timeout set_max_hw_heartbeat_ms
     set_hw_running set_registered or_ctrl with_wdt get_ctrl get_base
     get_timeout get_max_hw_heartbeat_ms writel readl mdelay
     fst snd wdt io trace registered wdd base ctrl timeout
     max_hw_heartbeat_ms hw_running];
  rewrite <- ?app_assoc; cbn [app].

Lemma aspeed_wdt_enable_eq count m :
  aspeed_wdt_enable count m =
  let b := base (wdt m) in
  let c := Z.lor (ctrl (wdt m)) WDT_CTRL_ENABLE in
  (tt, mk_machine
         (mk_wdt (wdd (wdt m)) b c)
         (<[b + WDT_CTRL := c]>
            (<[b + WDT_RESTART := WDT_RESTART_MAGIC]>
               (<[b + WDT_RELOAD_VALUE := u32 count]>
                  (<[b + WDT_CTRL := 0]> (io m)))))
         (trace m ++ [EvWritel 0 (b + WDT_CTRL);
                      EvWritel (u32 count) (b + WDT_RELOAD_VALUE);
                      EvWritel WDT_RESTART_MAGIC (b + WDT_RESTART);
                      EvWritel c (b + WDT_CTRL)])
         (registered m)).
Proof. unfold aspeed_wdt_enable. run. reflexivity. Qed.

Lemma aspeed_wdt_start_eq m :
  aspeed_wdt_start m =
  (0, snd (aspeed_wdt_enable (timeout (wdd (wdt m)) * WDT_RATE_1MHZ) m)).
Proof.
  unfold aspeed_wdt_start, bind, get_timeout, ret.
  rewrite !aspeed_wdt_enable_eq. cbn [snd].
  rewrite u32_int32, u32_idem. reflexivity.
Qed.

Lemma aspeed_wdt_stop_eq m :
  aspeed_wdt_stop m =
  let b := base (wdt m) in
  let c := Z.land (ctrl (wdt m)) (Z.lnot WDT_CTRL_ENABLE) in
  (0, mk_machine (mk_wdt (wdd (wdt m)) b c)
                 (<[b + WDT_CTRL := c]> (io m))
                 (trace m ++ [EvWritel c (b + WDT_CTRL)])
                 (registered m)).
Proof. unfold aspeed_wdt_stop. run. reflexivity. Qed.

Lemma aspeed_wdt_ping_eq m :
  aspeed_wdt_ping m =
  let b := base (wdt m) in
  (0, mk_machine (wdt m)
                 (<[b + WDT_RESTART := WDT_RESTART_MAGIC]> (io m))
                 (trace m ++ [EvWritel WDT_RESTART_MAGIC (b + WDT_RESTART)])
                 (registered m)).
Proof. unfold aspeed_wdt_ping. run. reflexivity. Qed.

Lemma aspeed_wdt_set_timeout_eq t m :
  aspeed_wdt_set_timeout t m =
  let b := base (wdt m) in
  let w := wdd (wdt m) in
  let actual := min t (u32 (max_hw_heartbeat_ms w * 1000)) in
  let count := u32 (actual * WDT_RATE_1MHZ) in
  (0, mk_machine
        (mk_wdt (mk_wdd t (max_hw_heartbeat_ms w) (hw_running w))
                b (ctrl (wdt m)))
        (<[b + WDT_RESTART := WDT_RESTART_MAGIC]>
           (<[b + WDT_RELOAD_VALUE := count]> (io m)))
        (trace m ++ [EvWritel count (b + WDT_RELOAD_VALUE);
                     EvWritel WDT_RESTART_MAGIC (b + WDT_RESTART)])
        (registered m)).
Proof. unfold aspeed_wdt_set_timeout. run. reflexivity. Qed.

Lemma aspeed_wdt_restart_eq action data m :
  aspeed_wdt_restart action data m =
  (0, snd (mdelay 1000 (snd (aspeed_wdt_enable 128000 m)))).
Proof.
  unfold aspeed_wdt_restart, bind, ret.
  rewrite !aspeed_wdt_enable_eq, restart_count.
  cbn [snd]. unfold mdelay. reflexivity.
Qed.

(** ** Bits of the control word *)

Lemma testbit_BIT nr i : 0 <= nr -> Z.testbit (BIT nr) i = (i =? nr).
Proof.
  intros Hnr. unfold BIT.
  destruct (Z.eqb_spec i nr) as [->|Hne].
  - rewrite Z.shiftl_spec, Z.sub_diag by assumption. reflexivity.
  - destruct (Z.lt_ge_cases i 0) as [Hi|Hi].
    + apply Z.testbit_neg_r. assumption.
    + rewrite Z.shiftl_spec by assumption.
      destruct (Z.lt_ge_cases i nr).
      * apply Z.testbit_neg_r. lia.
      * replace (i - nr) with (Z.succ (i - nr - 1)) by lia.
        rewrite Z.bits_above_log2; [reflexivity | lia | simpl; lia].
Qed.

Lemma enabled_testbit c : enabled c = Z.testbit c 0.
Proof.
  unfold enabled. change WDT_CTRL_ENABLE with (Z.ones 1).
  rewrite Z.land_ones by lia. change (2 ^ 1) with 2.
  rewrite <- Z.bit0_mod. destruct (Z.testbit c 0); reflexivity.
Qed.

Lemma enabled_lor_enable c : enabled (Z.lor c WDT_CTRL_ENABLE) = true.
Proof.
  rewrite enabled_testbit, Z.lor_spec.
  unfold WDT_CTRL_ENABLE. rewrite testbit_BIT by lia. apply orb_true_r.
Qed.

Lemma testbit_clear_enable c i :
  Z.testbit (Z.land c (Z.lnot WDT_CTRL_ENABLE)) i
  = Z.testbit c i && negb (i =? 0).
Proof.
  destruct (Z.lt_ge_cases i 0) as [Hi|Hi].
  - rewrite !Z.testbit_neg_r by assumption. reflexivity.
  - rewrite Z.land_spec, Z.lnot_spec by assumption.
    unfold WDT_CTRL_ENABLE. rewrite testbit_BIT by lia. reflexivity.
Qed.

Lemma land_clear_enable_idem c :
  Z.land (Z.land c (Z.lnot WDT_CTRL_ENABLE)) (Z.lnot WDT_CTRL_ENABLE)
  = Z.land c (Z.lnot WDT_CTRL_ENABLE).
Proof. rewrite <- Z.land_assoc, Z.land_diag. reflexivity. Qed.

(** ** Register lookups after stores *)

Lemma reg_insert_eq (regs : gmap Z Z) a v : reg (<[a := v]> regs) a = v.
Proof. unfold reg. rewrite lookup_insert_eq. reflexivity. Qed.

Lemma reg_insert_ne (regs : gmap Z Z) a a' v :
  a <> a' -> reg (<[a := v]> regs) a' = reg regs a'.
Proof.
  intros H. unfold reg. rewrite lookup_insert_ne by assumption. reflexivity.
Qed.

Lemma offsets_distinct b :
  b + WDT_CTRL <> b + WDT_RELOAD_VALUE /\
  b + WDT_CTRL <> b + WDT_RESTART /\
  b + WDT_CTRL <> b + WDT_RESET_WIDTH /\
  b + WDT_RELOAD_VALUE <> b + WDT_RESTART /\
  b + WDT_RELOAD_VALUE <> b + WDT_RESET_WIDTH /\
  b + WDT_RESTART <> b + WDT_RESET_WIDTH.
Proof.
  unfold WDT_CTRL, WDT_RELOAD_VALUE, WDT_RESTART, WDT_RESET_WIDTH. lia.
Qed.

Ltac regs :=
  repeat first
    [ rewrite reg_insert_eq
    | rewrite reg_insert_ne
        by (unfold WDT_CTRL, WDT_RELOAD_VALUE, WDT_RESTART, WDT_RESET_WIDTH;
            lia) ].

(** ** Starting the watchdog *)

(** Within the counter's range the product is the exact one. *)
Lemma reload_exact t :
  0 <= t <= 4294 -> u32 (t * WDT_RATE_1MHZ) = t * WDT_RATE_1MHZ.
Proof. intros H. apply u32_small. unfold WDT_RATE_1MHZ. lia. Qed.

(** The reload value of a start is not always the timeout times 1,000,000:
    with 4295 seconds cached (by [aspeed_wdt_set_timeout], which caches
    what it is given), the start stores 32,704 in the reload register, not
    4,295,000,000. *)
Lemma start_reload_at_4295 :
  cached_timeout (exec (aspeed_wdt_set_timeout 4295)
                       (snd (probe ast2500_pdev firmware_regs))) = 4295 /\
  reg (io (exec aspeed_wdt_start
             (exec (aspeed_wdt_set_timeout 4295)
                   (snd (probe ast2500_pdev firmware_regs)))))
      (0x1e785000 + WDT_RELOAD_VALUE) = 32704 /\
  In (EvWritel 32704 (0x1e785000 + WDT_RELOAD_VALUE))
     (trace (exec aspeed_wdt_start
               (exec (aspeed_wdt_set_timeout 4295)
                     (snd (probe ast2500_pdev firmware_regs))))) /\
  32704 <> 4295 * 1000000.
Proof.
  split; [vm_compute; reflexivity|].
  split; [vm_compute; reflexivity|].
  split; [vm_compute; tauto|].
  vm_compute. congruence.
Qed.

(** C3 (as the code has it).  Every call to [aspeed_wdt_start] returns 0
    and adds exactly four stores to the trace, in this order: 0 (a word
    with the enable flag clear) to the control register; a reload value to
    the reload register; the restart magic to the restart register; the
    cached control word with the enable flag or-ed in to the control
    register.  The cached word becomes that last value, and the control
    register then holds it, with the enable flag set.  The reload value is
    the [unsigned int] product the C expression computes; for a cached
    timeout up to 4294 seconds, whose count fits the 32-bit counter, it is
    the timeout times 1,000,000. *)
Theorem aspeed_wdt_start_sequence (m : machine) :
  let b := base (wdt m) in
  let c := Z.lor (ctrl (wdt m)) WDT_CTRL_ENABLE in
  let m' := exec aspeed_wdt_start m in
  eval aspeed_wdt_start m = 0 /\
  trace m' = trace m ++
    [EvWritel 0 (b + WDT_CTRL);
     EvWritel (u32 (timeout (wdd (wdt m)) * WDT_RATE_1MHZ))
              (b + WDT_RELOAD_VALUE);
     EvWritel WDT_RESTART_MAGIC (b + WDT_RESTART);
     EvWritel c (b + WDT_CTRL)] /\
  (0 <= timeout (wdd (wdt m)) <= 4294 ->
   trace m' = trace m ++
     [EvWritel 0 (b + WDT_CTRL);
      EvWritel (timeout (wdd (wdt m)) * 1000000) (b + WDT_RELOAD_VALUE);
      EvWritel WDT_RESTART_MAGIC (b + WDT_RESTART);
      EvWritel c (b + WDT_CTRL)]) /\
  enabled 0 = false /\
  ctrl (wdt m') = c /\
  reg (io m') (b + WDT_CTRL) = c /\
  enabled (reg (io m') (b + WDT_CTRL)) = true /\
  reg (io m') (b + WDT_RELOAD_VALUE)
    = u32 (timeout (wdd (wdt m)) * WDT_RATE_1MHZ) /\
  (0 <= timeout (wdd (wdt m)) <= 4294 ->
   reg (io m') (b + WDT_RELOAD_VALUE) = timeout (wdd (wdt m)) * 1000000) /\
  reg (io m') (b + WDT_RESTART) = WDT_RESTART_MAGIC.
Proof.
  intros b c m'. subst m'. unfold exec, eval.
  rewrite aspeed_wdt_start_eq, aspeed_wdt_enable_eq.
  cbn [fst snd trace wdt ctrl io]. fold b c.
  repeat split; regs; try reflexivity.
  - intros Ht. rewrite reload_exact by assumption. reflexivity.
  - apply enabled_lor_enable.
  - intros Ht. apply reload_exact. assumption.
Qed.

(** ** Forced restart *)

(** C8.  [aspeed_wdt_restart] does not look at its [action] and [data]
    arguments.  Whatever they are it returns 0, after the four stores of
    the enable sequence with 128,000 as the reload value (the sequence
    [aspeed_wdt_start] would run for a timeout giving that count) followed
    by a single delay of 1000 ms; the reload register then holds 128,000
    and the control register has the enable flag set. *)
Theorem aspeed_wdt_restart_spec (action data : Z) (m : machine) :
  let b := base (wdt m) in
  let c := Z.lor (ctrl (wdt m)) WDT_CTRL_ENABLE in
  let m' := exec (aspeed_wdt_restart action data) m in
  eval (aspeed_wdt_restart action data) m = 0 /\
  aspeed_wdt_restart action data m = aspeed_wdt_restart 0 0 m /\
  m' = exec (mdelay 1000) (exec (aspeed_wdt_enable 128000) m) /\
  trace m' = trace m ++
    [EvWritel 0 (b + WDT_CTRL);
     EvWritel 128000 (b + WDT_RELOAD_VALUE);
     EvWritel WDT_RESTART_MAGIC (b + WDT_RESTART);
     EvWritel c (b + WDT_CTRL);
     EvMdelay 1000] /\
  reg (io m') (b + WDT_RELOAD_VALUE) = 128000 /\
  enabled (reg (io m') (b + WDT_CTRL)) = true /\
  enabled (ctrl (wdt m')) = true.
Proof.
  intros b c m'. subst m'. unfold exec, eval.
  rewrite !aspeed_wdt_restart_eq, aspeed_wdt_enable_eq.
  unfold mdelay. cbn [fst snd trace wdt ctrl io]. fold b c.
  rewrite <- app_assoc. cbn [app].
  repeat split; regs; try reflexivity; apply enabled_lor_enable.
Qed.

(** ** Stopping the watchdog *)

(** C9.  [aspeed_wdt_stop] returns 0, clears bit 0 (the enable flag) of
    the cached control word and no other bit, and stores the result in the
    control register, as its only store.  A second call changes neither the
    driver structure nor the register block. *)
Theorem aspeed_wdt_stop_idempotent (m : machine) :
  let b := base (wdt m) in
  let m1 := exec aspeed_wdt_stop m in
  let m2 := exec aspeed_wdt_stop m1 in
  eval aspeed_wdt_stop m = 0 /\
  (forall i, Z.testbit (ctrl (wdt m1)) i
             = Z.testbit (ctrl (wdt m)) i && negb (i =? 0)) /\
  enabled (ctrl (wdt m1)) = false /\
  trace m1 = trace m ++ [EvWritel (ctrl (wdt m1)) (b + WDT_CTRL)] /\
  reg (io m1) (b + WDT_CTRL) = ctrl (wdt m1) /\
  wdt m2 = wdt m1 /\
  io m2 = io m1 /\
  reg (io m2) (b + WDT_CTRL) = reg (io m1) (b + WDT_CTRL).
Proof.
  intros b m1 m2. subst m1 m2. unfold exec, eval.
  rewrite !aspeed_wdt_stop_eq.
  cbn [fst snd trace wdt ctrl io base wdd]. fold b.
  rewrite land_clear_enable_idem, insert_insert_eq.
  repeat split; regs; try reflexivity.
  - intros i. apply testbit_clear_enable.
  - rewrite enabled_testbit, testbit_clear_enable. apply andb_false_r.
Qed.

(** ** Changing the timeout *)

(** C10.  [aspeed_wdt_set_timeout] stores to the reload register and then
    to the restart register, and nowhere else: every other address of the
    register block, the control register among them, keeps its value, and
    so do the cached control word and its enable flag. *)
Theorem aspeed_wdt_set_timeout_frame (t : Z) (m : machine) :
  let b := base (wdt m) in
  let m' := exec (aspeed_wdt_set_timeout t) m in
  (exists count,
     trace m' = trace m ++ [EvWritel count (b + WDT_RELOAD_VALUE);
                            EvWritel WDT_RESTART_MAGIC (b + WDT_RESTART)]) /\
  (forall a, a <> b + WDT_RELOAD_VALUE -> a <> b + WDT_RESTART ->
             io m' !! a = io m !! a) /\
  reg (io m') (b + WDT_CTRL) = reg (io m) (b + WDT_CTRL) /\
  ctrl (wdt m') = ctrl (wdt m) /\
  enabled (ctrl (wdt m')) = enabled (ctrl (wdt m)) /\
  enabled (reg (io m') (b + WDT_CTRL)) = enabled (reg (io m) (b + WDT_CTRL)).
Proof.
  intros b m'. subst m'. unfold exec.
  rewrite aspeed_wdt_set_timeout_eq.
  cbn [fst snd trace wdt ctrl io]. fold b.
  repeat split; regs; try reflexivity.
  - eexists. reflexivity.
  - intros a H1 H2. rewrite !lookup_insert_ne by congruence. reflexivity.
Qed.

(** ** The reload value written by [aspeed_wdt_set_timeout] *)

(** The bound the clamp compares against, with the heartbeat limit the
    probe routine installs: 4,294,967,000, which no realistic number of
    seconds reaches. *)
Lemma clamp_bound : u32 (WDT_MAX_TIMEOUT_MS * 1000) = 4294967000.
Proof. reflexivity. Qed.

Lemma set_timeout_reload (t : Z) (m : machine) :
  max_hw_heartbeat_ms (wdd (wdt m)) = WDT_MAX_TIMEOUT_MS ->
  reg (io (exec (aspeed_wdt_set_timeout t) m)) (base (wdt m) + WDT_RELOAD_VALUE)
  = u32 (min t 4294967000 * WDT_RATE_1MHZ).
Proof.
  intros Hmax. unfold exec. rewrite aspeed_wdt_set_timeout_eq.
  cbn [snd io]. regs. rewrite Hmax, clamp_bound. reflexivity.
Qed.

(** Up to 4294 seconds the reload register receives the exact number of
    microseconds. *)
Lemma set_timeout_reload_in_range (t : Z) (m : machine) :
  max_hw_heartbeat_ms (wdd (wdt m)) = WDT_MAX_TIMEOUT_MS ->
  1 <= t <= 4294 ->
  reg (io (exec (aspeed_wdt_set_timeout t) m)) (base (wdt m) + WDT_RELOAD_VALUE)
  = t * 1000000.
Proof.
  intros Hmax Ht. rewrite set_timeout_reload by assumption.
  unfold min. destruct (Z.ltb_spec t 4294967000); [|lia].
  rewrite reload_exact by lia. reflexivity.
Qed.

(** Between 4295 and 4,294,967,000 seconds the clamp leaves the request as
    it is, and the product is reduced modulo 2^32. *)
Lemma set_timeout_reload_wrapped (t : Z) (m : machine) :
  max_hw_heartbeat_ms (wdd (wdt m)) = WDT_MAX_TIMEOUT_MS ->
  4294 < t <= 4294967000 ->
  2 ^ 32 <= t * 1000000 /\
  reg (io (exec (aspeed_wdt_set_timeout t) m)) (base (wdt m) + WDT_RELOAD_VALUE)
  = (t * 1000000) mod 2 ^ 32.
Proof.
  intros Hmax Ht. split; [lia|].
  rewrite set_timeout_reload by assumption.
  unfold min. destruct (Z.ltb_spec t 4294967000).
  - reflexivity.
  - replace t with 4294967000 by lia. reflexivity.
Qed.

(** C1 (as the code behaves).  With the heartbeat limit of the probe
    routine in place: every request of 1 to 4294 seconds puts that many
    millions in the reload register, as specified; but a request of
    4295 seconds, whose count of 4,295,000,000 is beyond the 32-bit counter,
    is not clamped: the reload register receives 32,704, which is
    4,295,000,000 modulo 2^32, less than the count for one second, and none
    of the values a clamp could give (the count for 4294 seconds, the
    largest 32-bit value, the heartbeat limit times 1,000,000 in 32 bits). *)
Theorem aspeed_wdt_set_timeout_4295_wraps (m : machine) :
  max_hw_heartbeat_ms (wdd (wdt m)) = WDT_MAX_TIMEOUT_MS ->
  let reload t := reg (io (exec (aspeed_wdt_set_timeout t) m))
                      (base (wdt m) + WDT_RELOAD_VALUE) in
  (forall t, 1 <= t <= 4294 -> reload t = t * 1000000) /\
  2 ^ 32 <= 4295 * 1000000 /\
  reload 4295 = 32704 /\
  reload 4295 = (4295 * 1000000) mod 2 ^ 32 /\
  reload 4295 < reload 1 /\
  reload 4295 <> 4294 * 1000000 /\
  reload 4295 <> 2 ^ 32 - 1 /\
  reload 4295 <> u32 (WDT_MAX_TIMEOUT_MS * 1000000) /\
  In (EvWritel 32704 (base (wdt m) + WDT_RELOAD_VALUE))
     (trace (exec (aspeed_wdt_set_timeout 4295) m)).
Proof.
  intros Hmax reload.
  assert (Hin : forall t, 1 <= t <= 4294 -> reload t = t * 1000000).
  { intros t Ht. exact (set_timeout_reload_in_range t m Hmax Ht). }
  assert (Hr : reload 4295 = 32704).
  { subst reload. cbv beta. rewrite set_timeout_reload by assumption.
    vm_compute. reflexivity. }
  assert (H1 : reload 1 = 1000000) by (apply Hin; lia).
  split; [exact Hin|].
  rewrite Hr, H1. clear Hin Hr H1 reload.
  do 7 (split; [vm_compute; congruence|]).
  unfold exec. rewrite aspeed_wdt_set_timeout_eq.
  cbn [snd trace]. rewrite Hmax. apply in_or_app. right. left. reflexivity.
Qed.

(** ** The probe routine in closed form *)

Lemma string_compare_refl (s : string) : String.compare s s = Eq.
Proof.
  pose proof (String.compare_antisym s s) as H.
  destruct (String.compare s s); [reflexivity | discriminate | discriminate].
Qed.

Lemma strcmp_eq0 (cs ct : string) : (strcmp cs ct =? 0) = String.eqb cs ct.
Proof.
  unfold strcmp.
  destruct (String.eqb_spec cs ct) as [->|Hne].
  - rewrite string_compare_refl. reflexivity.
  - destruct (String.compare cs ct) eqn:E; [|reflexivity|reflexivity].
    apply String.compare_eq_iff in E. contradiction.
Qed.

Lemma probe_reset_type_eq np m :
  probe_reset_type np m =
  (tt, mk_machine
         (mk_wdt (wdd (wdt m)) (base (wdt m))
                 (Z.lor (ctrl (wdt m)) (reset_type_bits (aspeed_reset_type np))))
         (io m) (trace m) (registered m)).
Proof.
  unfold probe_reset_type, reset_type_bits.
  destruct (aspeed_reset_type np) as [s|]; [|reflexivity].
  rewrite !strcmp_eq0.
  destruct (String.eqb s "cpu"); [reflexivity|].
  destruct (String.eqb s "soc"); [reflexivity|].
  destruct (String.eqb s "system"); [reflexivity|].
  rewrite Z.lor_0_r. destruct m as [[w b c] i t r]. reflexivity.
Qed.

Lemma apply_events_app tr1 tr2 regs :
  apply_events (tr1 ++ tr2) regs = apply_events tr2 (apply_events tr1 regs).
Proof. unfold apply_events. apply fold_left_app. Qed.

(** The duration field survives the or with each of the four tags. *)
Lemma magic_keeps_duration r magic :
  Z.land magic WDT_RESET_WIDTH_DURATION = 0 ->
  Z.land (Z.lor (Z.land r WDT_RESET_WIDTH_DURATION) magic)
         WDT_RESET_WIDTH_DURATION
  = Z.land r WDT_RESET_WIDTH_DURATION.
Proof.
  intros H.
  rewrite Z.land_lor_distr_l, H, Z.lor_0_r, <- Z.land_assoc, Z.land_diag.
  reflexivity.
Qed.

Lemma drive_magic_keeps_duration np r :
  Z.land (Z.lor (Z.land r WDT_RESET_WIDTH_DURATION) (drive_magic np))
         WDT_RESET_WIDTH_DURATION
  = Z.land r WDT_RESET_WIDTH_DURATION.
Proof.
  apply magic_keeps_duration. unfold drive_magic.
  destruct (aspeed_ext_push_pull np); reflexivity.
Qed.

Lemma polarity_magic_keeps_duration np r :
  Z.land (Z.lor (Z.land r WDT_RESET_WIDTH_DURATION) (polarity_magic np))
         WDT_RESET_WIDTH_DURATION
  = Z.land r WDT_RESET_WIDTH_DURATION.
Proof.
  apply magic_keeps_duration. unfold polarity_magic.
  destruct (aspeed_ext_active_high np); reflexivity.
Qed.

Lemma probe_reset_width_eq np b m :
  probe_reset_width np b m =
  let tr := reset_width_writes np b (reg (io m) (b + WDT_RESET_WIDTH)) in
  (tt, mk_machine (wdt m) (apply_events tr (io m)) (trace m ++ tr)
                  (registered m)).
Proof.
  unfold probe_reset_width, reset_width_writes.
  destruct (compatible_ast2500 np).
  - run. fold (drive_magic np) (polarity_magic np).
    rewrite drive_magic_keeps_duration. reflexivity.
  - unfold ret. cbn. rewrite app_nil_r. destruct m; reflexivity.
Qed.

Lemma probe_pulse_duration_eq np b m :
  probe_pulse_duration np b m =
  let tr := duration_writes np b in
  (if duration_rejected np then Some (- EINVAL) else None,
   mk_machine (wdt m) (apply_events tr (io m)) (trace m ++ tr) (registered m)).
Proof.
  unfold probe_pulse_duration, duration_writes, duration_rejected.
  destruct (aspeed_ext_pulse_duration np) as [d|].
  - destruct (d >? WDT_RESET_WIDTH_DURATION).
    + unfold ret. cbn. rewrite app_nil_r. destruct m; reflexivity.
    + run. reflexivity.
  - unfold ret. cbn. rewrite app_nil_r. destruct m; reflexivity.
Qed.

Ltac step :=
  cbn [exec eval bind ret set_ctrl set_base set_timeout
       set_max_hw_heartbeat_ms set_hw_running set_registered or_ctrl with_wdt
       get_ctrl get_base get_timeout get_max_hw_heartbeat_ms writel readl
       mdelay fst snd wdt io trace registered wdd base ctrl timeout
       max_hw_heartbeat_ms hw_running].

Lemma bind_eq {A B} (c : M A) (k : A -> M B) (m : machine) :
  bind c k m = k (fst (c m)) (snd (c m)).
Proof. unfold bind. destruct (c m). reflexivity. Qed.

Lemma probe_register_eq pdev m :
  probe_register pdev m =
  (watchdog_register_device pdev,
   mk_machine (wdt m) (io m) (trace m)
              (if watchdog_register_device pdev =? 0 then true
               else registered m)).
Proof.
  unfold probe_register.
  destruct (Z.eqb_spec (watchdog_register_device pdev) 0) as [->|Hne].
  - reflexivity.
  - destruct m; reflexivity.
Qed.

Lemma probe_eq (pdev : platform_device) (regs : gmap Z Z) (b : Z) :
  devm_kzalloc_ok pdev = true ->
  devm_ioremap_resource pdev = inl b ->
  probe pdev regs =
  let np := of_node pdev in
  let live := reg regs (b + WDT_CTRL) in
  let tr := probe_events pdev b regs in
  let rejected := duration_rejected np in
  (if rejected then - EINVAL else watchdog_register_device pdev,
   mk_machine
     (mk_wdt (mk_wdd (probe_timeout pdev) WDT_MAX_TIMEOUT_MS (enabled live))
             b
             (if enabled live then Z.lor (probe_ctrl np) WDT_CTRL_ENABLE
              else probe_ctrl np))
     (apply_events tr regs) tr
     (negb rejected && (watchdog_register_device pdev =? 0))).
Proof.
  intros Hk Hb. unfold probe, aspeed_wdt_probe, kzalloc_machine.
  rewrite Hk, Hb. cbn [negb].
  unfold probe_events, adoption_writes, probe_timeout, probe_ctrl.
  set (np := of_node pdev).
  set (tmo := match watchdog_init_timeout pdev with
              | Some t => t
              | None => WDT_DEFAULT_TIMEOUT
              end).
  set (live := reg regs (b + WDT_CTRL)).
  assert (Hpre :
    (set_base b ;; set_max_hw_heartbeat_ms WDT_MAX_TIMEOUT_MS ;;
     set_timeout WDT_DEFAULT_TIMEOUT ;;
     match watchdog_init_timeout pdev with
     | Some t => set_timeout t
     | None => ret tt
     end ;; set_ctrl WDT_CTRL_1MHZ_CLK)
      (mk_machine (mk_wdt (mk_wdd 0 0 false) 0 0) regs [] false)
    = (tt, mk_machine
             (mk_wdt (mk_wdd tmo WDT_MAX_TIMEOUT_MS false) b WDT_CTRL_1MHZ_CLK)
             regs [] false)).
  { subst tmo. destruct (watchdog_init_timeout pdev); reflexivity. }
  rewrite !bind_eq in Hpre. rewrite !bind_eq. rewrite Hpre. clear Hpre.
  cbn [snd]. rewrite probe_reset_type_eq. step.
  assert (Hext : forall m,
    (if aspeed_external_signal np then or_ctrl WDT_CTRL_WDT_EXT else ret tt) m
    = (tt, mk_machine
             (mk_wdt (wdd (wdt m)) (base (wdt m))
                (Z.lor (ctrl (wdt m))
                   (if aspeed_external_signal np then WDT_CTRL_WDT_EXT else 0)))
             (io m) (trace m) (registered m))).
  { intros [[w b0 c] i t r]. destruct (aspeed_external_signal np); step;
      rewrite ?Z.lor_0_r; reflexivity. }
  rewrite Hext. clear Hext. step. fold live.
  change (negb (Z.land live WDT_CTRL_ENABLE =? 0)) with (enabled live).
  set (c := Z.lor (Z.lor WDT_CTRL_1MHZ_CLK _) _).
  rewrite probe_pulse_duration_eq, probe_reset_width_eq.
  destruct (enabled live).
  - rewrite bind_eq, aspeed_wdt_start_eq, aspeed_wdt_enable_eq. step.
    regs. rewrite !apply_events_app.
    destruct (duration_rejected np); step;
      [|rewrite probe_register_eq; step];
      unfold ret; rewrite <- ?app_assoc; cbn [app negb andb];
      try destruct (watchdog_register_device pdev =? 0); reflexivity.
  - step. rewrite !apply_events_app.
    destruct (duration_rejected np); step;
      [|rewrite probe_register_eq; step];
      unfold ret; rewrite <- ?app_assoc; cbn [app negb andb];
      try destruct (watchdog_register_device pdev =? 0); reflexivity.
Qed.

(** The two ways the probe routine gives up before touching a register. *)
Lemma probe_no_memory pdev regs :
  devm_kzalloc_ok pdev = false ->
  probe pdev regs = (- ENOMEM, kzalloc_machine regs).
Proof. intros H. unfold probe, aspeed_wdt_probe. rewrite H. reflexivity. Qed.

Lemma probe_no_mapping pdev regs err :
  devm_kzalloc_ok pdev = true ->
  devm_ioremap_resource pdev = inr err ->
  probe pdev regs = (err, kzalloc_machine regs).
Proof.
  intros Hk H. unfold probe, aspeed_wdt_probe. rewrite Hk, H. reflexivity.
Qed.

(** ** Events and the registers they leave alone *)

Lemma apply_events_other (tr : list event) (regs : gmap Z Z) (a a' : Z) :
  a <> a' ->
  Forall (writes_to a) tr ->
  apply_events tr regs !! a' = regs !! a'.
Proof.
  intros Hne H. revert regs.
  induction H as [|e tr He _ IH]; intros regs; [reflexivity|].
  unfold apply_events in *. cbn [fold_left]. rewrite IH.
  destruct e as [v a0|ms]; cbn in He |- *; [|contradiction].
  subst a0. apply lookup_insert_ne. assumption.
Qed.

Lemma reset_width_writes_to np b width :
  Forall (writes_to (b + WDT_RESET_WIDTH)) (reset_width_writes np b width).
Proof.
  unfold reset_width_writes. destruct (compatible_ast2500 np);
    repeat constructor.
Qed.

Lemma duration_writes_to np b :
  Forall (writes_to (b + WDT_RESET_WIDTH)) (duration_writes np b).
Proof.
  unfold duration_writes. destruct (aspeed_ext_pulse_duration np) as [d|];
    [destruct (d >? WDT_RESET_WIDTH_DURATION)|]; repeat constructor.
Qed.

Lemma pulse_writes_to np b width :
  Forall (writes_to (b + WDT_RESET_WIDTH))
         (reset_width_writes np b width ++ duration_writes np b).
Proof.
  apply Forall_app. split;
    [apply reset_width_writes_to | apply duration_writes_to].
Qed.

Lemma flag_BIT nr c : 0 <= nr -> flag (BIT nr) c = Z.testbit c nr.
Proof.
  intros Hnr. unfold flag.
  destruct (Z.testbit c nr) eqn:E.
  - destruct (Z.eqb_spec (Z.land c (BIT nr)) 0) as [H0|]; [|reflexivity].
    assert (Z.testbit (Z.land c (BIT nr)) nr = true) as H.
    { rewrite Z.land_spec, E, testbit_BIT, Z.eqb_refl by assumption.
      reflexivity. }
    rewrite H0, Z.bits_0 in H. discriminate.
  - replace (Z.land c (BIT nr)) with 0; [reflexivity|].
    symmetry. apply Z.bits_inj'. intros i Hi.
    rewrite Z.bits_0, Z.land_spec, testbit_BIT by assumption.
    destruct (Z.eqb_spec i nr) as [->|]; [rewrite E|]; auto using andb_false_r.
Qed.

Lemma enabled_flag c : enabled c = flag WDT_CTRL_ENABLE c.
Proof. reflexivity. Qed.

(** ** Decoding the reset type *)

Lemma reset_type_bits_other (s : string) :
  s <> "cpu" -> s <> "soc" -> s <> "system" ->
  reset_type_bits (Some s) = 0.
Proof.
  intros H1 H2 H3. unfold reset_type_bits.
  destruct (String.eqb_spec s "cpu"); [contradiction|].
  destruct (String.eqb_spec s "soc"); [contradiction|].
  destruct (String.eqb_spec s "system"); [contradiction|].
  reflexivity.
Qed.

(** The control word cached at the end of a probe that got its registers. *)
Lemma probe_ctrl_eq pdev regs b :
  devm_kzalloc_ok pdev = true ->
  devm_ioremap_resource pdev = inl b ->
  ctrl (wdt (snd (probe pdev regs)))
  = if enabled (reg regs (b + WDT_CTRL))
    then Z.lor (probe_ctrl (of_node pdev)) WDT_CTRL_ENABLE
    else probe_ctrl (of_node pdev).
Proof. intros Hk Hb. rewrite (probe_eq pdev regs b Hk Hb). reflexivity. Qed.

Lemma probe_ctrl_fields pdev regs b (rt : option string) :
  devm_kzalloc_ok pdev = true ->
  devm_ioremap_resource pdev = inl b ->
  let c := ctrl (wdt (snd (probe (with_reset_type pdev rt) regs))) in
  system_reset c = system_reset (reset_type_bits rt) /\
  reset_mode c = reset_mode (reset_type_bits rt).
Proof.
  intros Hk Hb c. subst c.
  rewrite (probe_ctrl_eq _ regs b) by assumption.
  unfold probe_ctrl, with_reset_type.
  cbn [of_node aspeed_reset_type aspeed_external_signal].
  set (bits := reset_type_bits rt).
  assert (Hbits : bits = WDT_CTRL_RESET_SYSTEM \/
                  bits = WDT_CTRL_RESET_MODE_ARM_CPU \/ bits = 0).
  { subst bits. unfold reset_type_bits. destruct rt as [s|]; [|auto].
    destruct (String.eqb s "cpu"); [auto|].
    destruct (String.eqb s "soc"); [auto|].
    destruct (String.eqb s "system"); auto. }
  destruct (enabled (reg regs (b + WDT_CTRL)));
    destruct (aspeed_external_signal (of_node pdev));
    destruct Hbits as [-> | [-> | ->]]; split; reflexivity.
Qed.

(** C2.  For a probe that got its memory and its registers, the cached
    control word depends on the "aspeed,reset-type" answer as follows:
    with no answer, and with "system", the system-reset flag is set and the
    reset-mode field is the soc (all-zero) one; with "cpu" the reset-mode
    field is the ARM-CPU one and the system-reset flag is clear; with "soc"
    the field is the soc one and the flag is clear; with any other string
    the whole outcome of the probe (return code, driver structure,
    registers, trace) is that of "soc". *)
Theorem probe_reset_scope (pdev : platform_device) (regs : gmap Z Z) (b : Z) :
  devm_kzalloc_ok pdev = true ->
  devm_ioremap_resource pdev = inl b ->
  let c rt := ctrl (wdt (snd (probe (with_reset_type pdev rt) regs))) in
  (system_reset (c None) = true /\
   reset_mode (c None) = WDT_CTRL_RESET_MODE_SOC) /\
  (system_reset (c (Some "system")) = true /\
   reset_mode (c (Some "system")) = WDT_CTRL_RESET_MODE_SOC) /\
  (reset_mode (c (Some "cpu")) = WDT_CTRL_RESET_MODE_ARM_CPU /\
   system_reset (c (Some "cpu")) = false) /\
  (reset_mode (c (Some "soc")) = WDT_CTRL_RESET_MODE_SOC /\
   system_reset (c (Some "soc")) = false) /\
  (forall s : string,
     s <> "cpu" -> s <> "soc" -> s <> "system" ->
     probe (with_reset_type pdev (Some s)) regs
     = probe (with_reset_type pdev (Some "soc")) regs).
Proof.
  intros Hk Hb c. subst c. cbv beta.
  pose proof (fun rt => probe_ctrl_fields pdev regs b rt Hk Hb) as F.
  cbv zeta in F.
  repeat split; try (rewrite (proj1 (F _)); reflexivity);
    try (rewrite (proj2 (F _)); reflexivity).
  intros s H1 H2 H3.
  rewrite (probe_eq (with_reset_type pdev (Some s)) regs b Hk Hb).
  rewrite (probe_eq (with_reset_type pdev (Some "soc")) regs b Hk Hb).
  unfold probe_events, adoption_writes, probe_ctrl, probe_timeout,
    with_reset_type, duration_rejected, reset_width_writes, duration_writes,
    drive_magic, polarity_magic.
  cbn [of_node aspeed_reset_type aspeed_external_signal compatible_ast2500
       aspeed_ext_push_pull aspeed_ext_active_high aspeed_ext_pulse_duration
       watchdog_init_timeout watchdog_register_device].
  rewrite (reset_type_bits_other s H1 H2 H3). reflexivity.
Qed.

Lemma probe_reset_scope_witness :
  reset_mode (ctrl (wdt (snd (probe (with_reset_type ast2500_pdev (Some "cpu"))
                                    firmware_regs))))
  = WDT_CTRL_RESET_MODE_ARM_CPU /\
  ctrl (wdt (snd (probe (with_reset_type ast2500_pdev (Some "cpu"))
                        firmware_regs))) = 0x219.
Proof.
  split; [|vm_compute; reflexivity].
  pose proof (probe_reset_scope ast2500_pdev firmware_regs 0x1e785000
                eq_refl eq_refl) as H.
  cbv zeta in H. destruct H as (_ & _ & (H & _) & _).
  exact H.
Defined.

(** ** Bits and fields the probe routine sets *)

Lemma probe_ctrl_1mhz np : Z.testbit (probe_ctrl np) 4 = true.
Proof.
  unfold probe_ctrl. rewrite !Z.lor_spec.
  unfold WDT_CTRL_1MHZ_CLK. rewrite testbit_BIT by lia. reflexivity.
Qed.

Lemma probe_ctrl_not_enabled np : enabled (probe_ctrl np) = false.
Proof.
  rewrite enabled_testbit. unfold probe_ctrl, reset_type_bits.
  rewrite !Z.lor_spec.
  destruct (aspeed_reset_type np) as [s|];
    [destruct (String.eqb s "cpu"), (String.eqb s "soc"),
       (String.eqb s "system")|];
    destruct (aspeed_external_signal np); reflexivity.
Qed.

Lemma duration_field_range r :
  0 <= Z.land r WDT_RESET_WIDTH_DURATION <= 4095.
Proof.
  change WDT_RESET_WIDTH_DURATION with (Z.ones 12).
  rewrite Z.land_ones by lia.
  pose proof (Z.mod_pos_bound r (2 ^ 12)). lia.
Qed.

Lemma tag_of_lor d magic :
  0 <= d <= 4095 -> Z.shiftr (Z.lor d magic) 24 = Z.shiftr magic 24.
Proof.
  intros Hd. rewrite Z.shiftr_lor.
  replace (Z.shiftr d 24) with 0; [reflexivity|].
  rewrite Z.shiftr_div_pow2 by lia. symmetry. apply Z.div_small. lia.
Qed.

(** ** A probe that got its memory and its registers *)

Section Probed.

Variables (pdev : platform_device) (regs : gmap Z Z) (b : Z).
Hypothesis Hk : devm_kzalloc_ok pdev = true.
Hypothesis Hb : devm_ioremap_resource pdev = inl b.

Lemma probed :
  probe pdev regs =
  (if duration_rejected (of_node pdev) then - EINVAL
   else watchdog_register_device pdev,
   mk_machine
     (mk_wdt (mk_wdd (probe_timeout pdev) WDT_MAX_TIMEOUT_MS
                     (enabled (reg regs (b + WDT_CTRL))))
             b
             (if enabled (reg regs (b + WDT_CTRL))
              then Z.lor (probe_ctrl (of_node pdev)) WDT_CTRL_ENABLE
              else probe_ctrl (of_node pdev)))
     (apply_events (probe_events pdev b regs) regs)
     (probe_events pdev b regs)
     (negb (duration_rejected (of_node pdev))
      && (watchdog_register_device pdev =? 0))).
Proof. exact (probe_eq pdev regs b Hk Hb). Qed.

(** *** Adopting a watchdog that is already running *)

(** C4.  For a probe that got its memory and its registers, with [live]
    the control register as the probe finds it.  If [live] has the enable
    flag set, the trace begins with the four stores of the start sequence
    (for the timeout and the control word the probe has just computed),
    every later store goes to the pulse register, and at the end the
    control register has the enable flag and the 1 MHz clock flag set, the
    cached control word has the enable flag set and [WDOG_HW_RUNNING] is
    set.  If [live] has the enable flag clear, the probe stores to the
    pulse register at most: the control, reload and restart registers are
    as they were, the cached control word has the enable flag clear and
    [WDOG_HW_RUNNING] is clear. *)
Theorem probe_adoption :
  let live := reg regs (b + WDT_CTRL) in
  let m' := snd (probe pdev regs) in
  let c := Z.lor (probe_ctrl (of_node pdev)) WDT_CTRL_ENABLE in
  (enabled live = true ->
     (exists rest,
        trace m' =
          [EvWritel 0 (b + WDT_CTRL);
           EvWritel (u32 (probe_timeout pdev * WDT_RATE_1MHZ))
                    (b + WDT_RELOAD_VALUE);
           EvWritel WDT_RESTART_MAGIC (b + WDT_RESTART);
           EvWritel c (b + WDT_CTRL)] ++ rest /\
        Forall (writes_to (b + WDT_RESET_WIDTH)) rest) /\
     reg (io m') (b + WDT_CTRL) = c /\
     enabled (reg (io m') (b + WDT_CTRL)) = true /\
     flag WDT_CTRL_1MHZ_CLK (reg (io m') (b + WDT_CTRL)) = true /\
     enabled (ctrl (wdt m')) = true /\
     hw_running (wdd (wdt m')) = true) /\
  (enabled live = false ->
     Forall (writes_to (b + WDT_RESET_WIDTH)) (trace m') /\
     io m' !! (b + WDT_CTRL) = regs !! (b + WDT_CTRL) /\
     io m' !! (b + WDT_RELOAD_VALUE) = regs !! (b + WDT_RELOAD_VALUE) /\
     io m' !! (b + WDT_RESTART) = regs !! (b + WDT_RESTART) /\
     enabled (ctrl (wdt m')) = false /\
     hw_running (wdd (wdt m')) = false).
Proof.
  intros live m' c. subst m'. rewrite probed.
  cbn [snd trace io wdt wdd ctrl hw_running]. fold live.
  unfold probe_events, adoption_writes. fold live. fold c.
  pose proof (pulse_writes_to (of_node pdev) b
                (reg regs (b + WDT_RESET_WIDTH))) as Hp.
  pose proof (offsets_distinct b) as (D1 & D2 & D3 & D4 & D5 & D6).
  split; intros He; rewrite He.
  - assert (Hc : reg (apply_events
                        ([EvWritel 0 (b + WDT_CTRL);
                          EvWritel (u32 (probe_timeout pdev * WDT_RATE_1MHZ))
                                   (b + WDT_RELOAD_VALUE);
                          EvWritel WDT_RESTART_MAGIC (b + WDT_RESTART);
                          EvWritel c (b + WDT_CTRL)] ++
                         reset_width_writes (of_node pdev) b
                           (reg regs (b + WDT_RESET_WIDTH)) ++
                         duration_writes (of_node pdev) b) regs)
                     (b + WDT_CTRL) = c).
    { rewrite apply_events_app. unfold reg at 1.
      rewrite (apply_events_other _ _ (b + WDT_RESET_WIDTH)) by auto.
      cbn. rewrite lookup_insert_eq. reflexivity. }
    rewrite Hc. repeat split.
    + eexists. split; [reflexivity | exact Hp].
    + apply enabled_lor_enable.
    + unfold WDT_CTRL_1MHZ_CLK. rewrite flag_BIT by lia.
      subst c. rewrite Z.lor_spec, probe_ctrl_1mhz. reflexivity.
    + apply enabled_lor_enable.
  - cbn [app].
    rewrite !(apply_events_other _ _ (b + WDT_RESET_WIDTH)) by auto.
    repeat split; auto using probe_ctrl_not_enabled.
Qed.

(** *** The pulse register: drive mode, polarity, duration *)

(** C7.  On the variant with the pulse register (compatible with
    "aspeed,ast2500-wdt"), for a probe that got its memory and its
    registers and whatever the pulse register holds beforehand: the two
    stores for drive mode and polarity follow the adoption stores in the
    trace, each value is the 12-bit duration field of the old register
    value or-ed with a magic whose top byte is the tag (0xA8 or 0x8A, then
    0xA5 or 0x5A), each keeps that duration field, the register read back
    after both holds the second value, and when the device tree gives no
    explicit duration the duration field at the end of the probe is the one
    from before. *)
Theorem probe_reset_width_keeps_duration :
  compatible_ast2500 (of_node pdev) = true ->
  let np := of_node pdev in
  let a := b + WDT_RESET_WIDTH in
  let d := Z.land (reg regs a) WDT_RESET_WIDTH_DURATION in
  let w1 := Z.lor d (drive_magic np) in
  let w2 := Z.lor d (polarity_magic np) in
  let m' := snd (probe pdev regs) in
  trace m' = adoption_writes pdev b (reg regs (b + WDT_CTRL))
             ++ [EvWritel w1 a; EvWritel w2 a] ++ duration_writes np b /\
  Z.land w1 WDT_RESET_WIDTH_DURATION = d /\
  Z.land w2 WDT_RESET_WIDTH_DURATION = d /\
  Z.shiftr w1 24 = drive_tag np /\
  Z.shiftr w2 24 = polarity_tag np /\
  reg (apply_events [EvWritel w1 a; EvWritel w2 a] regs) a = w2 /\
  (aspeed_ext_pulse_duration np = None ->
   Z.land (reg (io m') a) WDT_RESET_WIDTH_DURATION = d).
Proof.
  intros Hc np a d w1 w2 m'. subst m'. rewrite probed.
  cbn [snd trace io]. unfold probe_events, reset_width_writes.
  rewrite Hc. fold np a. fold d. fold w1 w2.
  assert (Hw1 : Z.land w1 WDT_RESET_WIDTH_DURATION = d)
    by apply drive_magic_keeps_duration.
  assert (Hw2 : Z.land w2 WDT_RESET_WIDTH_DURATION = d)
    by apply polarity_magic_keeps_duration.
  pose proof (duration_field_range (reg regs a)) as Hd. fold d in Hd.
  repeat split; try assumption.
  - subst w1. rewrite tag_of_lor by assumption.
    unfold drive_magic, drive_tag.
    destruct (aspeed_ext_push_pull np); reflexivity.
  - subst w2. rewrite tag_of_lor by assumption.
    unfold polarity_magic, polarity_tag.
    destruct (aspeed_ext_active_high np); reflexivity.
  - cbn. apply reg_insert_eq.
  - intros Hnone. unfold duration_writes. rewrite Hnone.
    rewrite app_nil_r, apply_events_app. cbn.
    rewrite reg_insert_eq. exact Hw2.
Qed.

(** C6 (as the code has it).  The explicit pulse duration is handled at
    the end of every probe that got its memory and its registers, on
    either variant.  A duration above 4095 makes the probe return
    [-EINVAL] with the device not registered and no store of the duration;
    a duration up to 4095 is stored as it is, unscaled, at the pulse
    register's offset as the last store of the probe, and the probe goes on
    to register the device. *)
Theorem probe_pulse_duration_checked (d : Z) :
  aspeed_ext_pulse_duration (of_node pdev) = Some d ->
  let np := of_node pdev in
  let a := b + WDT_RESET_WIDTH in
  let before := adoption_writes pdev b (reg regs (b + WDT_CTRL))
                ++ reset_width_writes np b (reg regs a) in
  let r := probe pdev regs in
  (WDT_RESET_WIDTH_DURATION < d ->
     fst r = - EINVAL /\
     registered (snd r) = false /\
     trace (snd r) = before) /\
  (d <= WDT_RESET_WIDTH_DURATION ->
     trace (snd r) = before ++ [EvWritel d a] /\
     reg (io (snd r)) a = d /\
     fst r = watchdog_register_device pdev /\
     registered (snd r) = (watchdog_register_device pdev =? 0)).
Proof.
  intros Hd np a before r. subst r before. rewrite probed.
  cbn [fst snd trace io registered].
  unfold probe_events, duration_rejected, duration_writes.
  fold np a. fold np in Hd. rewrite Hd.
  split; intros Hcmp.
  - destruct (Z.gtb_spec d WDT_RESET_WIDTH_DURATION); [|lia].
    rewrite !app_nil_r. repeat split.
  - destruct (Z.gtb_spec d WDT_RESET_WIDTH_DURATION); [lia|].
    rewrite !app_assoc, apply_events_app. cbn [negb andb].
    repeat split. cbn. apply reg_insert_eq.
Qed.

End Probed.

(** ** The theorems on two boards *)

Lemma probe_adoption_witness :
  enabled (reg (io (snd (probe ast2500_pdev firmware_regs)))
               (0x1e785000 + WDT_CTRL)) = true /\
  hw_running (wdd (wdt (snd (probe ast2500_pdev firmware_regs)))) = true.
Proof.
  pose proof (probe_adoption ast2500_pdev firmware_regs 0x1e785000
                eq_refl eq_refl) as H.
  cbv zeta in H. destruct H as [H _].
  specialize (H eq_refl). destruct H as (_ & _ & H1 & _ & _ & H2).
  split; [exact H1 | exact H2].
Defined.

Lemma probe_reset_width_keeps_duration_witness :
  Z.land (reg (io (snd (probe ast2500_pdev firmware_regs)))
              (0x1e785000 + WDT_RESET_WIDTH)) WDT_RESET_WIDTH_DURATION
  = Z.land (reg firmware_regs (0x1e785000 + WDT_RESET_WIDTH))
           WDT_RESET_WIDTH_DURATION /\
  reg firmware_regs (0x1e785000 + WDT_RESET_WIDTH) = 0xFF.
Proof.
  split; [|reflexivity].
  pose proof (probe_reset_width_keeps_duration ast2500_pdev firmware_regs
                0x1e785000 eq_refl eq_refl eq_refl) as H.
  cbv zeta in H. destruct H as (_ & _ & _ & _ & _ & _ & H).
  exact (H eq_refl).
Defined.

(** The explicit duration, as the specification has it, is for the variant
    with the pulse register only.  On the other variant the probe routine
    takes it all the same: a duration of 100 is stored at the pulse
    register's offset, one of 5000 is refused. *)
Lemma ast2400_pulse_duration_applied :
  compatible_ast2500 (of_node (ast2400_pdev 100)) = false /\
  probe (ast2400_pdev 100) ∅
  = (0, mk_machine
          (mk_wdt (mk_wdd 30 4294967 false) 0x1e785000 0x12)
          (<[0x1e785000 + WDT_RESET_WIDTH := 100]> ∅)
          [EvWritel 100 (0x1e785000 + WDT_RESET_WIDTH)]
          true) /\
  fst (probe (ast2400_pdev 5000) ∅) = - EINVAL.
Proof. repeat split. Qed.

Lemma probe_pulse_duration_checked_witness :
  reg (io (snd (probe (ast2400_pdev 100) firmware_regs)))
      (0x1e785000 + WDT_RESET_WIDTH) = 100 /\
  fst (probe (ast2400_pdev 100) firmware_regs) = 0.
Proof.
  pose proof (probe_pulse_duration_checked (ast2400_pdev 100) firmware_regs
                0x1e785000 eq_refl eq_refl 100 eq_refl) as H.
  cbv zeta in H. destruct H as [_ H].
  assert (Hle : 100 <= WDT_RESET_WIDTH_DURATION) by (vm_compute; congruence).
  destruct (H Hle) as (_ & H1 & H2 & _).
  split; [exact H1 | exact H2].
Defined.

Lemma aspeed_wdt_set_timeout_4295_wraps_witness :
  reg (io (exec (aspeed_wdt_set_timeout 4295)
                (snd (probe ast2500_pdev firmware_regs))))
      (0x1e785000 + WDT_RELOAD_VALUE) = 32704 /\
  max_hw_heartbeat_ms (wdd (wdt (snd (probe ast2500_pdev firmware_regs))))
  = WDT_MAX_TIMEOUT_MS.
Proof.
  split; [|reflexivity].
  pose proof (aspeed_wdt_set_timeout_4295_wraps
                (snd (probe ast2500_pdev firmware_regs)) eq_refl) as H.
  cbv zeta in H. destruct H as (_ & _ & H & _).
  exact H.
Defined.

(** ** The cached timeout is whatever was last asked for *)

(** The specified bounds fail for a request of zero seconds and
    for the largest [unsigned int]: both are cached as they come. *)
Lemma set_timeout_caches_out_of_bounds :
  timeout_ok (cached_timeout (snd (probe ast2500_pdev firmware_regs))) /\
  cached_timeout (exec (aspeed_wdt_set_timeout 0)
                       (snd (probe ast2500_pdev firmware_regs))) = 0 /\
  ~ timeout_ok 0 /\
  cached_timeout (exec (aspeed_wdt_set_timeout 4294967295)
                       (snd (probe ast2500_pdev firmware_regs)))
  = 4294967295 /\
  ~ timeout_ok 4294967295.
Proof.
  unfold timeout_ok.
  repeat split; try (vm_compute; congruence).
  - intros [H _]. vm_compute in H. congruence.
  - intros [_ H]. vm_compute in H. congruence.
Qed.

(** C5 (as the code has it).  [aspeed_wdt_set_timeout] caches its argument
    unchanged, so the cached timeout is within 1..4294 afterwards exactly
    when the argument is; start, stop, ping and restart leave the cached
    timeout alone; and a probe that got its memory and its registers caches
    the default of 30 seconds, which is within the bounds, unless the
    watchdog core installs a timeout of its own, which is then cached. *)
Theorem cached_timeout_is_last_request (t action data : Z) (m : machine) :
  cached_timeout (exec (aspeed_wdt_set_timeout t) m) = t /\
  (timeout_ok (cached_timeout (exec (aspeed_wdt_set_timeout t) m))
   <-> timeout_ok t) /\
  cached_timeout (exec aspeed_wdt_start m) = cached_timeout m /\
  cached_timeout (exec aspeed_wdt_stop m) = cached_timeout m /\
  cached_timeout (exec aspeed_wdt_ping m) = cached_timeout m /\
  cached_timeout (exec (aspeed_wdt_restart action data) m) = cached_timeout m /\
  timeout_ok WDT_DEFAULT_TIMEOUT /\
  (forall np b core rr regs,
     cached_timeout (snd (probe (mk_pdev np true (inl b) core rr) regs))
     = match core with Some t' => t' | None => WDT_DEFAULT_TIMEOUT end).
Proof.
  unfold cached_timeout, exec.
  rewrite aspeed_wdt_set_timeout_eq, aspeed_wdt_start_eq, aspeed_wdt_stop_eq,
    aspeed_wdt_ping_eq, aspeed_wdt_restart_eq, !aspeed_wdt_enable_eq.
  cbn [snd wdt wdd timeout mdelay].
  split; [reflexivity|]. split; [tauto|].
  do 4 (split; [reflexivity|]).
  split; [unfold timeout_ok; split; vm_compute; congruence|].
  intros np b core rr regs.
  rewrite (probe_eq (mk_pdev np true (inl b) core rr) regs b eq_refl eq_refl).
  reflexivity.
Qed.

(** * Further properties of the operations *)

(** ** Bit identities on the enable flag *)

Lemma lor_clear_enable c :
  Z.lor (Z.land c (Z.lnot WDT_CTRL_ENABLE)) WDT_CTRL_ENABLE
  = Z.lor c WDT_CTRL_ENABLE.
Proof.
  apply Z.bits_inj'. intros i Hi.
  rewrite !Z.lor_spec, testbit_clear_enable.
  unfold WDT_CTRL_ENABLE. rewrite testbit_BIT by lia.
  destruct (Z.testbit c i), (i =? 0); reflexivity.
Qed.

Lemma land_lor_enable c :
  Z.land (Z.lor c WDT_CTRL_ENABLE) (Z.lnot WDT_CTRL_ENABLE)
  = Z.land c (Z.lnot WDT_CTRL_ENABLE).
Proof.
  apply Z.bits_inj'. intros i Hi.
  rewrite !testbit_clear_enable, Z.lor_spec.
  unfold WDT_CTRL_ENABLE. rewrite testbit_BIT by lia.
  destruct (Z.testbit c i), (i =? 0); reflexivity.
Qed.

Lemma lor_enable_idem c :
  Z.lor (Z.lor c WDT_CTRL_ENABLE) WDT_CTRL_ENABLE = Z.lor c WDT_CTRL_ENABLE.
Proof. rewrite <- Z.lor_assoc, Z.lor_diag. reflexivity. Qed.

(** Two register blocks built by stores are equal when they agree at every
    address. *)
Ltac same_regs :=
  apply map_eq; intros ?a;
  repeat (rewrite lookup_insert; destruct (decide _));
  first [ reflexivity
        | exfalso;
          unfold WDT_CTRL, WDT_RELOAD_VALUE, WDT_RESTART, WDT_RESET_WIDTH in *;
          lia ].

Ltac run_op :=
  unfold exec, eval;
  rewrite ?aspeed_wdt_start_eq, ?aspeed_wdt_stop_eq, ?aspeed_wdt_ping_eq,
    ?aspeed_wdt_set_timeout_eq, ?aspeed_wdt_restart_eq,
    ?aspeed_wdt_enable_eq;
  unfold mdelay;
  cbn [fst snd wdt io trace registered wdd base ctrl timeout
       max_hw_heartbeat_ms hw_running].

(** ** Pinging *)

(** X1.  [aspeed_wdt_ping] returns 0 after one store, of the restart magic
    to the restart register; the driver structure and every other address
    of the register block, the control and reload registers among them,
    are as before, and a second ping leaves the register block as the first
    did. *)
Theorem aspeed_wdt_ping_frame (m : machine) :
  let b := base (wdt m) in
  let m' := exec aspeed_wdt_ping m in
  eval aspeed_wdt_ping m = 0 /\
  trace m' = trace m ++ [EvWritel WDT_RESTART_MAGIC (b + WDT_RESTART)] /\
  wdt m' = wdt m /\
  reg (io m') (b + WDT_RESTART) = WDT_RESTART_MAGIC /\
  (forall a, a <> b + WDT_RESTART -> io m' !! a = io m !! a) /\
  reg (io m') (b + WDT_CTRL) = reg (io m) (b + WDT_CTRL) /\
  reg (io m') (b + WDT_RELOAD_VALUE) = reg (io m) (b + WDT_RELOAD_VALUE) /\
  io (exec aspeed_wdt_ping m') = io m'.
Proof.
  intros b m'. subst m'. run_op. run_op. fold b.
  repeat split; regs; try reflexivity.
  - intros a Ha. rewrite lookup_insert_ne by congruence. reflexivity.
  - apply insert_insert_eq.
Qed.

(** ** One operation after another *)

(** X2.  Starting makes what came before irrelevant, unless that changed
    the timeout: after a start, stop, ping or restart, a start leaves the
    driver structure and the whole register block exactly as a start alone
    would. *)
Theorem start_overrides (action data : Z) (m : machine) :
  let s := exec aspeed_wdt_start m in
  let after o := exec aspeed_wdt_start (exec (aspeed_wdt_ops o) m) in
  (wdt (after OpStart) = wdt s /\ io (after OpStart) = io s) /\
  (wdt (after OpStop) = wdt s /\ io (after OpStop) = io s) /\
  (wdt (after OpPing) = wdt s /\ io (after OpPing) = io s) /\
  (wdt (after (OpRestart action data)) = wdt s /\
   io (after (OpRestart action data)) = io s).
Proof.
  intros s after. subst s after. cbv beta. cbn [aspeed_wdt_ops].
  run_op. run_op.
  rewrite lor_enable_idem, lor_clear_enable.
  repeat split; same_regs.
Qed.

(** X3.  Stopping disarms whatever came before: after a start, stop, ping
    or restart, a stop leaves the driver structure and the control register
    as a stop alone would, with the enable flag clear in both. *)
Theorem stop_overrides (action data : Z) (m : machine) :
  let b := base (wdt m) in
  let s := exec aspeed_wdt_stop m in
  let after o := exec aspeed_wdt_stop (exec (aspeed_wdt_ops o) m) in
  let same m' :=
    wdt m' = wdt s /\ reg (io m') (b + WDT_CTRL) = reg (io s) (b + WDT_CTRL) in
  same (after OpStart) /\ same (after OpStop) /\ same (after OpPing) /\
  same (after (OpRestart action data)) /\
  enabled (ctrl (wdt s)) = false /\
  enabled (reg (io s) (b + WDT_CTRL)) = false.
Proof.
  intros b s after same. subst s after same. cbv beta. cbn [aspeed_wdt_ops].
  run_op. run_op. fold b.
  rewrite land_lor_enable, land_clear_enable_idem.
  assert (He : enabled (Z.land (ctrl (wdt m)) (Z.lnot WDT_CTRL_ENABLE)) = false).
  { rewrite enabled_testbit, testbit_clear_enable. apply andb_false_r. }
  repeat split; regs; try reflexivity; exact He.
Qed.

(** X4.  The last timeout request wins: two calls of
    [aspeed_wdt_set_timeout] leave the driver structure and the whole
    register block as the second call alone would. *)
Theorem set_timeout_last_wins (t1 t2 : Z) (m : machine) :
  let m2 := exec (aspeed_wdt_set_timeout t2) m in
  let m12 :=
    exec (aspeed_wdt_set_timeout t2) (exec (aspeed_wdt_set_timeout t1) m) in
  wdt m12 = wdt m2 /\ io m12 = io m2.
Proof.
  intros m2 m12. subst m2 m12. run_op. run_op.
  split; [reflexivity | same_regs].
Qed.

(** X5.  A start after [aspeed_wdt_set_timeout t] writes the 32-bit product
    of [t] and 1,000,000 to the reload register; with the heartbeat limit
    of the probe routine in place and [t] no larger than 4,294,967,000 that
    is the value [aspeed_wdt_set_timeout] itself had written. *)
Theorem set_timeout_then_start (t : Z) (m : machine) :
  max_hw_heartbeat_ms (wdd (wdt m)) = WDT_MAX_TIMEOUT_MS ->
  t <= 4294967000 ->
  let b := base (wdt m) in
  let m1 := exec (aspeed_wdt_set_timeout t) m in
  let m2 := exec aspeed_wdt_start m1 in
  reg (io m2) (b + WDT_RELOAD_VALUE) = u32 (t * WDT_RATE_1MHZ) /\
  reg (io m2) (b + WDT_RELOAD_VALUE) = reg (io m1) (b + WDT_RELOAD_VALUE).
Proof.
  intros Hmax Ht b m1 m2. subst m1 m2. run_op. run_op. fold b. regs.
  rewrite Hmax, clamp_bound. unfold min.
  destruct (Z.ltb_spec t 4294967000); [split; reflexivity|].
  replace t with 4294967000 by lia. split; reflexivity.
Qed.

Lemma set_timeout_then_start_witness :
  reg (io (exec aspeed_wdt_start
             (exec (aspeed_wdt_set_timeout 60)
                   (snd (probe ast2500_pdev firmware_regs)))))
      (0x1e785000 + WDT_RELOAD_VALUE) = 60000000.
Proof.
  pose proof (set_timeout_then_start 60
                (snd (probe ast2500_pdev firmware_regs)) eq_refl) as H.
  assert (Hle : 60 <= 4294967000) by (vm_compute; congruence).
  destruct (H Hle) as [H1 _]. exact H1.
Defined.

(** * Properties of whole runs: a probe, then any sequence of calls *)

(** ** One call *)

Ltac offsets :=
  unfold WDT_STATUS, WDT_CTRL, WDT_RELOAD_VALUE, WDT_RESTART,
    WDT_RESET_WIDTH in *.

(** Decide the address and value tests of [reload_latched] on a trace
    whose addresses are offsets from one base. *)
Ltac eqb_solve :=
  repeat match goal with
  | |- context [(?x =? ?y)] =>
      destruct (Z.eqb_spec x y);
        try (exfalso; offsets; lia)
  end;
  cbn [andb]; try reflexivity.

(** Every event of an explicit trace is one the driver makes. *)
Ltac driver_events :=
  repeat match goal with
  | |- Forall _ (_ :: _) =>
      constructor;
        [cbn;
         first [ reflexivity
               | left; reflexivity
               | right; left; reflexivity
               | right; right; left; reflexivity
               | right; right; right; split; reflexivity ]|]
  end;
  constructor.

Lemma run_ops_cons o ops m :
  run_ops (o :: ops) m = run_ops ops (exec (aspeed_wdt_ops o) m).
Proof. reflexivity. Qed.

Lemma reload_latched_app b tr1 tr2 :
  reload_latched b tr1 = true ->
  reload_latched b tr2 = true ->
  reload_latched b (tr1 ++ tr2) = true.
Proof.
  intros H1 H2. induction tr1 as [|e tr1 IH]; [exact H2|].
  destruct e as [v a|ms]; cbn [app reload_latched] in H1 |- *.
  - destruct (a =? b + WDT_RELOAD_VALUE).
    + destruct tr1 as [|[v' a'|ms'] tr1']; try discriminate.
      apply andb_true_iff in H1 as [Hc Hl].
      cbn [app]. rewrite Hc. apply IH. exact Hl.
    + apply IH. exact H1.
  - apply IH. exact H1.
Qed.

Lemma ops_step o m :
  let b := base (wdt m) in
  let m' := exec (aspeed_wdt_ops o) m in
  base (wdt m') = b /\
  exists tr,
    trace m' = trace m ++ tr /\
    io m' = apply_events tr (io m) /\
    Forall (driver_event b) tr /\
    reload_latched b tr = true.
Proof.
  intros b m'. subst m'.
  destruct o; cbn [aspeed_wdt_ops]; run_op; fold b;
    rewrite <- ?app_assoc; cbn [app];
    (split; [reflexivity|]); eexists;
    (split; [reflexivity|]); (split; [reflexivity|]);
    (split; [driver_events | cbn; eqb_solve]).
Qed.

Lemma run_ops_summary ops m :
  let b := base (wdt m) in
  let m' := run_ops ops m in
  base (wdt m') = b /\
  exists tr,
    trace m' = trace m ++ tr /\
    io m' = apply_events tr (io m) /\
    Forall (driver_event b) tr /\
    reload_latched b tr = true.
Proof.
  revert m. induction ops as [|o ops IH]; intros m b m'; subst b m'.
  - split; [reflexivity|]. exists []. rewrite app_nil_r.
    repeat split. constructor.
  - rewrite run_ops_cons.
    destruct (ops_step o m) as (Hb1 & tr1 & Ht1 & Hi1 & Hf1 & Hl1).
    destruct (IH (exec (aspeed_wdt_ops o) m)) as (Hb2 & tr2 & Ht2 & Hi2 & Hf2 & Hl2).
    rewrite Hb1 in *. split; [exact Hb2|].
    exists (tr1 ++ tr2). rewrite Ht2, Ht1, Hi2, Hi1, app_assoc, apply_events_app.
    repeat split.
    + apply Forall_app. split; assumption.
    + apply reload_latched_app; assumption.
Qed.

(** ** The probe *)

Lemma probe_summary pdev regs :
  let m := snd (probe pdev regs) in
  let b := base (wdt m) in
  io m = apply_events (trace m) regs /\
  Forall (driver_event b) (trace m) /\
  reload_latched b (trace m) = true.
Proof.
  intros m b. subst m b.
  destruct (devm_kzalloc_ok pdev) eqn:Hk;
    [|rewrite probe_no_memory by assumption; repeat split; constructor].
  destruct (devm_ioremap_resource pdev) as [b|err] eqn:Hb;
    [|rewrite (probe_no_mapping _ _ err) by assumption;
      repeat split; constructor].
  rewrite (probe_eq pdev regs b Hk Hb).
  cbn [snd io trace wdt base].
  split; [reflexivity|].
  unfold probe_events, adoption_writes, reset_width_writes, duration_writes.
  destruct (enabled (reg regs (b + WDT_CTRL)));
    destruct (compatible_ast2500 (of_node pdev));
    destruct (aspeed_ext_pulse_duration (of_node pdev)) as [d|];
    try destruct (d >? WDT_RESET_WIDTH_DURATION);
    cbn [app];
    (split; [driver_events | cbn; eqb_solve]).
Qed.

Lemma driver_events_frame b tr regs a :
  a <> b + WDT_RELOAD_VALUE -> a <> b + WDT_RESTART ->
  a <> b + WDT_CTRL -> a <> b + WDT_RESET_WIDTH ->
  Forall (driver_event b) tr ->
  apply_events tr regs !! a = regs !! a.
Proof.
  intros H1 H2 H3 H4 H. revert regs.
  induction H as [|e tr He _ IH]; intros regs; [reflexivity|].
  unfold apply_events in *. cbn [fold_left]. rewrite IH.
  destruct e as [v a0|ms]; cbn in He |- *; [|reflexivity].
  apply lookup_insert_ne. intuition congruence.
Qed.

(** ** What the calls leave alone *)

Lemma ops_config o m :
  let m' := exec (aspeed_wdt_ops o) m in
  base (wdt m') = base (wdt m) /\
  max_hw_heartbeat_ms (wdd (wdt m')) = max_hw_heartbeat_ms (wdd (wdt m)) /\
  hw_running (wdd (wdt m')) = hw_running (wdd (wdt m)) /\
  registered m' = registered m /\
  Z.land (ctrl (wdt m')) (Z.lnot WDT_CTRL_ENABLE)
  = Z.land (ctrl (wdt m)) (Z.lnot WDT_CTRL_ENABLE).
Proof.
  intros m'. subst m'.
  destruct o; cbn [aspeed_wdt_ops]; run_op;
    rewrite ?land_lor_enable, ?land_clear_enable_idem; repeat split.
Qed.

Lemma keeps_mask mask c c' :
  Z.land (Z.lnot WDT_CTRL_ENABLE) mask = mask ->
  Z.land c (Z.lnot WDT_CTRL_ENABLE) = Z.land c' (Z.lnot WDT_CTRL_ENABLE) ->
  Z.land c mask = Z.land c' mask.
Proof.
  intros Hm H. rewrite <- Hm, !Z.land_assoc, H. reflexivity.
Qed.

(** X6.  Whatever sequence of start, stop, ping, set-timeout and restart
    calls is made, the configuration stays as it was: the register base,
    the heartbeat limit, the [WDOG_HW_RUNNING] mark and the registration,
    and every bit of the cached control word other than the enable flag,
    so the reset mode, the system-reset flag, the external-signal flag and
    the 1 MHz clock flag. *)
Theorem configuration_persists (ops : list wdt_op) (m : machine) :
  let m' := run_ops ops m in
  base (wdt m') = base (wdt m) /\
  max_hw_heartbeat_ms (wdd (wdt m')) = max_hw_heartbeat_ms (wdd (wdt m)) /\
  hw_running (wdd (wdt m')) = hw_running (wdd (wdt m)) /\
  registered m' = registered m /\
  (forall i, i <> 0 ->
     Z.testbit (ctrl (wdt m')) i = Z.testbit (ctrl (wdt m)) i) /\
  reset_mode (ctrl (wdt m')) = reset_mode (ctrl (wdt m)) /\
  system_reset (ctrl (wdt m')) = system_reset (ctrl (wdt m)) /\
  flag WDT_CTRL_WDT_EXT (ctrl (wdt m')) = flag WDT_CTRL_WDT_EXT (ctrl (wdt m)) /\
  flag WDT_CTRL_1MHZ_CLK (ctrl (wdt m'))
  = flag WDT_CTRL_1MHZ_CLK (ctrl (wdt m)).
Proof.
  intros m'. subst m'.
  assert (H : base (wdt (run_ops ops m)) = base (wdt m) /\
    max_hw_heartbeat_ms (wdd (wdt (run_ops ops m)))
    = max_hw_heartbeat_ms (wdd (wdt m)) /\
    hw_running (wdd (wdt (run_ops ops m))) = hw_running (wdd (wdt m)) /\
    registered (run_ops ops m) = registered m /\
    Z.land (ctrl (wdt (run_ops ops m))) (Z.lnot WDT_CTRL_ENABLE)
    = Z.land (ctrl (wdt m)) (Z.lnot WDT_CTRL_ENABLE)).
  { revert m. induction ops as [|o ops IH]; intros m; [repeat split|].
    rewrite run_ops_cons.
    destruct (IH (exec (aspeed_wdt_ops o) m)) as (A1 & A2 & A3 & A4 & A5).
    destruct (ops_config o m) as (B1 & B2 & B3 & B4 & B5).
    rewrite A1, A2, A3, A4, A5. repeat split; assumption. }
  destruct H as (H1 & H2 & H3 & H4 & H5).
  repeat split; try assumption.
  - intros i Hi.
    assert (Hb : Z.testbit (Z.land (ctrl (wdt (run_ops ops m)))
                                   (Z.lnot WDT_CTRL_ENABLE)) i
                 = Z.testbit (Z.land (ctrl (wdt m))
                                     (Z.lnot WDT_CTRL_ENABLE)) i)
      by (rewrite H5; reflexivity).
    rewrite !testbit_clear_enable in Hb.
    destruct (Z.eqb_spec i 0); [contradiction|].
    rewrite !andb_true_r in Hb. exact Hb.
  - unfold reset_mode. apply keeps_mask; [reflexivity | exact H5].
  - unfold system_reset, flag. f_equal. f_equal.
    apply keeps_mask; [reflexivity | exact H5].
  - unfold flag. f_equal. f_equal.
    apply keeps_mask; [reflexivity | exact H5].
  - unfold flag. f_equal. f_equal.
    apply keeps_mask; [reflexivity | exact H5].
Qed.

Lemma ops_frame_step o m a :
  a <> base (wdt m) + WDT_RELOAD_VALUE ->
  a <> base (wdt m) + WDT_RESTART ->
  a <> base (wdt m) + WDT_CTRL ->
  io (exec (aspeed_wdt_ops o) m) !! a = io m !! a.
Proof.
  intros H1 H2 H3.
  destruct o; cbn [aspeed_wdt_ops]; run_op;
    rewrite !lookup_insert_ne by congruence; reflexivity.
Qed.

(** X7.  No sequence of start, stop, ping, set-timeout and restart calls
    stores anywhere but to the reload, restart and control registers: every
    other address keeps its value, so the pulse register stays as the probe
    left it and the status register is never written. *)
Theorem ops_touch_three_registers (ops : list wdt_op) (m : machine) :
  let b := base (wdt m) in
  let m' := run_ops ops m in
  (forall a, a <> b + WDT_RELOAD_VALUE -> a <> b + WDT_RESTART ->
             a <> b + WDT_CTRL -> io m' !! a = io m !! a) /\
  reg (io m') (b + WDT_RESET_WIDTH) = reg (io m) (b + WDT_RESET_WIDTH) /\
  reg (io m') (b + WDT_STATUS) = reg (io m) (b + WDT_STATUS).
Proof.
  intros b m'. subst b m'.
  assert (H : forall a, a <> base (wdt m) + WDT_RELOAD_VALUE ->
                        a <> base (wdt m) + WDT_RESTART ->
                        a <> base (wdt m) + WDT_CTRL ->
                        io (run_ops ops m) !! a = io m !! a).
  { revert m. induction ops as [|o ops IH]; intros m a H1 H2 H3;
      [reflexivity|].
    rewrite run_ops_cons.
    pose proof (ops_config o m) as (Hb & _).
    rewrite IH by (rewrite Hb; assumption).
    apply ops_frame_step; assumption. }
  split; [exact H|]. unfold reg.
  rewrite !H by (offsets; lia). split; reflexivity.
Qed.

(** ** A probe and the calls after it *)

Lemma lifetime_summary pdev regs ops :
  let m := run_ops ops (snd (probe pdev regs)) in
  let b := base (wdt m) in
  io m = apply_events (trace m) regs /\
  Forall (driver_event b) (trace m) /\
  reload_latched b (trace m) = true.
Proof.
  intros m b. subst m b.
  destruct (probe_summary pdev regs) as (Pi & Pf & Pl).
  destruct (run_ops_summary ops (snd (probe pdev regs)))
    as (Hb & tr & Ht & Hi & Hf & Hl).
  rewrite Hb, Ht, Hi, Pi, apply_events_app.
  repeat split.
  - apply Forall_app. split; assumption.
  - apply reload_latched_app; assumption.
Qed.

(** X8.  Over a probe and any sequence of calls after it, every store to
    the reload register is followed at once by a store of the restart magic
    to the restart register: a new count is never left unlatched. *)
Theorem reload_always_latched
    (pdev : platform_device) (regs : gmap Z Z) (ops : list wdt_op) :
  reload_latched (base (wdt (run_ops ops (snd (probe pdev regs)))))
                 (trace (run_ops ops (snd (probe pdev regs)))) = true.
Proof. apply (lifetime_summary pdev regs ops). Qed.

(** X9.  Over a probe and any sequence of calls after it, the driver's
    events are stores to the reload, control and pulse registers, stores of
    the restart magic 0x4755 (and of nothing else) to the restart register,
    and delays of 1000 ms; the register block is the initial one with these
    stores applied in order, so every address other than those four
    registers, the status register among them, keeps its initial value. *)
Theorem driver_stores_confined
    (pdev : platform_device) (regs : gmap Z Z) (ops : list wdt_op) :
  let m := run_ops ops (snd (probe pdev regs)) in
  let b := base (wdt m) in
  Forall (driver_event b) (trace m) /\
  io m = apply_events (trace m) regs /\
  (forall a, a <> b + WDT_RELOAD_VALUE -> a <> b + WDT_RESTART ->
             a <> b + WDT_CTRL -> a <> b + WDT_RESET_WIDTH ->
             io m !! a = regs !! a) /\
  reg (io m) (b + WDT_STATUS) = reg regs (b + WDT_STATUS).
Proof.
  intros m b.
  destruct (lifetime_summary pdev regs ops) as (Hi & Hf & _).
  fold m b in Hi, Hf.
  assert (H : forall a, a <> b + WDT_RELOAD_VALUE -> a <> b + WDT_RESTART ->
                        a <> b + WDT_CTRL -> a <> b + WDT_RESET_WIDTH ->
                        io m !! a = regs !! a).
  { intros a H1 H2 H3 H4. rewrite Hi.
    apply (driver_events_frame b); assumption. }
  repeat split; try assumption.
  unfold reg. rewrite H by (offsets; lia). reflexivity.
Qed.

(** ** The enable flag, cached and in the register *)

Lemma ops_enable_agrees o m :
  enable_agrees m -> enable_agrees (exec (aspeed_wdt_ops o) m).
Proof.
  unfold enable_agrees. intros H.
  destruct o; cbn [aspeed_wdt_ops]; run_op; regs;
    try reflexivity; exact H.
Qed.

Lemma ops_ctrl_coherent o m :
  ctrl_coherent m -> ctrl_coherent (exec (aspeed_wdt_ops o) m).
Proof.
  unfold ctrl_coherent. intros H.
  destruct o; cbn [aspeed_wdt_ops]; run_op; regs;
    try reflexivity; exact H.
Qed.

Lemma probe_enable_agrees pdev regs b :
  devm_kzalloc_ok pdev = true ->
  devm_ioremap_resource pdev = inl b ->
  enable_agrees (snd (probe pdev regs)).
Proof.
  intros Hk Hb. unfold enable_agrees.
  rewrite (probe_eq pdev regs b Hk Hb).
  cbn [snd io wdt base ctrl]. unfold probe_events.
  set (live := reg regs (b + WDT_CTRL)).
  set (adopt := adoption_writes pdev b live).
  pose proof (pulse_writes_to (of_node pdev) b
                (reg regs (b + WDT_RESET_WIDTH))) as Hp.
  pose proof (offsets_distinct b) as (_ & _ & D & _).
  assert (Hreg : forall rest,
            Forall (writes_to (b + WDT_RESET_WIDTH)) rest ->
            reg (apply_events (adopt ++ rest) regs) (b + WDT_CTRL)
            = reg (apply_events adopt regs) (b + WDT_CTRL)).
  { intros rest Hr. unfold reg. rewrite apply_events_app.
    rewrite (apply_events_other _ _ (b + WDT_RESET_WIDTH)) by auto.
    reflexivity. }
  rewrite Hreg by exact Hp. subst adopt. unfold adoption_writes.
  destruct (enabled live) eqn:E.
  - unfold apply_events. cbn [fold_left apply_event].
    rewrite reg_insert_eq. reflexivity.
  - unfold apply_events. cbn [fold_left]. fold live. rewrite E.
    symmetry. apply probe_ctrl_not_enabled.
Qed.

(** X10.  After a probe that got its memory and its registers, and after
    any sequence of calls that follows, the enable flag of the control
    register is the enable flag of the cached control word: the driver's
    idea of armed or disarmed is the hardware's. *)
Theorem enable_flag_agrees
    (pdev : platform_device) (regs : gmap Z Z) (b : Z) (ops : list wdt_op) :
  devm_kzalloc_ok pdev = true ->
  devm_ioremap_resource pdev = inl b ->
  enable_agrees (run_ops ops (snd (probe pdev regs))).
Proof.
  intros Hk Hb.
  pose proof (probe_enable_agrees pdev regs b Hk Hb) as H.
  revert H. generalize (snd (probe pdev regs)).
  induction ops as [|o ops IH]; intros m H; [exact H|].
  rewrite run_ops_cons. apply IH. apply ops_enable_agrees. exact H.
Qed.

Lemma enable_flag_agrees_witness :
  enable_agrees (run_ops [OpStop; OpSetTimeout 60; OpPing]
                         (snd (probe ast2500_pdev firmware_regs))).
Proof.
  exact (enable_flag_agrees ast2500_pdev firmware_regs 0x1e785000
           [OpStop; OpSetTimeout 60; OpPing] eq_refl eq_refl).
Defined.

(** X11.  A start, stop or restart brings the control register and the
    cached control word into full agreement, whatever they were, and once
    they agree no sequence of calls makes them differ. *)
Theorem ctrl_register_tracks_cache
    (action data : Z) (ops : list wdt_op) (m : machine) :
  ctrl_coherent (run_ops ops (exec aspeed_wdt_start m)) /\
  ctrl_coherent (run_ops ops (exec aspeed_wdt_stop m)) /\
  ctrl_coherent (run_ops ops (exec (aspeed_wdt_restart action data) m)).
Proof.
  assert (H : forall m0, ctrl_coherent m0 -> ctrl_coherent (run_ops ops m0)).
  { induction ops as [|o ops IH]; intros m0 H0; [exact H0|].
    rewrite run_ops_cons. apply IH. apply ops_ctrl_coherent. exact H0. }
  repeat split; apply H; unfold ctrl_coherent; run_op; regs; reflexivity.
Qed.

(** ** Stored values fit the registers *)

Lemma in_u32_iff c : 0 <= c < 2 ^ 32 <-> Z.land c (Z.ones 32) = c.
Proof.
  rewrite Z.land_ones by lia. split.
  - intros H. apply Z.mod_small. exact H.
  - intros H. rewrite <- H. apply Z.mod_pos_bound. lia.
Qed.

Lemma u32_lor (c d : Z) :
  0 <= c < 2 ^ 32 -> 0 <= d < 2 ^ 32 -> 0 <= Z.lor c d < 2 ^ 32.
Proof.
  rewrite !in_u32_iff. intros Hc Hd.
  rewrite Z.land_lor_distr_l, Hc, Hd. reflexivity.
Qed.

Lemma u32_land_l (c d : Z) : 0 <= c < 2 ^ 32 -> 0 <= Z.land c d < 2 ^ 32.
Proof.
  rewrite !in_u32_iff. intros Hc.
  rewrite <- Z.land_assoc, (Z.land_comm d), Z.land_assoc, Hc. reflexivity.
Qed.

Ltac closed_u32 := vm_compute; split; [discriminate | reflexivity].

Lemma probe_ctrl_u32 np : 0 <= probe_ctrl np < 2 ^ 32.
Proof.
  unfold probe_ctrl, reset_type_bits.
  destruct (aspeed_reset_type np) as [s|];
    [destruct (String.eqb s "cpu"), (String.eqb s "soc"),
       (String.eqb s "system")|];
    destruct (aspeed_external_signal np); closed_u32.
Qed.

Lemma pulse_word_u32 r magic :
  0 <= magic < 2 ^ 32 ->
  0 <= Z.lor (Z.land r WDT_RESET_WIDTH_DURATION) magic < 2 ^ 32.
Proof.
  intros Hm. apply u32_lor; [|exact Hm].
  pose proof (duration_field_range r). lia.
Qed.

Ltac u32_events :=
  repeat match goal with
  | |- Forall _ (_ :: _) =>
      constructor;
        [cbn;
         first [ exact I | apply u32_range | assumption
               | apply u32_lor; [assumption | closed_u32]
               | apply u32_land_l; assumption
               | closed_u32 ]|]
  end;
  constructor.

Lemma ops_u32_step o m :
  0 <= ctrl (wdt m) < 2 ^ 32 ->
  let m' := exec (aspeed_wdt_ops o) m in
  0 <= ctrl (wdt m') < 2 ^ 32 /\
  exists tr, trace m' = trace m ++ tr /\ Forall stores_u32 tr.
Proof.
  intros Hc m'. subst m'.
  assert (Hs : 0 <= Z.lor (ctrl (wdt m)) WDT_CTRL_ENABLE < 2 ^ 32)
    by (apply u32_lor; [assumption | closed_u32]).
  assert (Hl : 0 <= Z.land (ctrl (wdt m)) (Z.lnot WDT_CTRL_ENABLE) < 2 ^ 32)
    by (apply u32_land_l; assumption).
  destruct o; cbn [aspeed_wdt_ops]; run_op;
    rewrite <- ?app_assoc; cbn [app];
    (split; [assumption|]); eexists; (split; [reflexivity|]); u32_events.
Qed.

Lemma probe_u32 pdev regs :
  (forall d, aspeed_ext_pulse_duration (of_node pdev) = Some d -> 0 <= d) ->
  let m := snd (probe pdev regs) in
  0 <= ctrl (wdt m) < 2 ^ 32 /\ Forall stores_u32 (trace m).
Proof.
  intros Hd m. subst m.
  destruct (devm_kzalloc_ok pdev) eqn:Hk;
    [|rewrite probe_no_memory by assumption; split;
      [closed_u32 | constructor]].
  destruct (devm_ioremap_resource pdev) as [b|err] eqn:Hb;
    [|rewrite (probe_no_mapping _ _ err) by assumption; split;
      [closed_u32 | constructor]].
  rewrite (probe_eq pdev regs b Hk Hb). cbn [snd wdt ctrl trace].
  pose proof (probe_ctrl_u32 (of_node pdev)) as Hc.
  assert (Hs : 0 <= Z.lor (probe_ctrl (of_node pdev)) WDT_CTRL_ENABLE < 2 ^ 32)
    by (apply u32_lor; [assumption | closed_u32]).
  split; [destruct (enabled _); assumption|].
  unfold probe_events. repeat (apply Forall_app; split).
  - unfold adoption_writes. destruct (enabled _); u32_events.
  - unfold reset_width_writes, drive_magic, polarity_magic.
    destruct (compatible_ast2500 _); [|constructor].
    destruct (aspeed_ext_push_pull _), (aspeed_ext_active_high _);
      repeat (constructor; [cbn; apply pulse_word_u32; closed_u32|]);
      constructor.
  - unfold duration_writes.
    destruct (aspeed_ext_pulse_duration (of_node pdev)) as [d|] eqn:E;
      [|constructor].
    destruct (Z.gtb_spec d WDT_RESET_WIDTH_DURATION); [constructor|].
    constructor; [|constructor]. cbn.
    specialize (Hd d eq_refl). unfold WDT_RESET_WIDTH_DURATION in *. lia.
Qed.

(** X12.  When the device tree's pulse duration, if it gives one, is not
    negative, every value the probe and any sequence of calls after it
    store is a 32-bit value (0 to 2^32 - 1), and so is the cached control
    word, whatever the timeouts asked for and whatever the registers held:
    no store is truncated by the 32-bit bus. *)
Theorem stores_fit_32_bits
    (pdev : platform_device) (regs : gmap Z Z) (ops : list wdt_op) :
  (forall d, aspeed_ext_pulse_duration (of_node pdev) = Some d -> 0 <= d) ->
  let m := run_ops ops (snd (probe pdev regs)) in
  Forall stores_u32 (trace m) /\ 0 <= ctrl (wdt m) < 2 ^ 32.
Proof.
  intros Hd m. subst m.
  destruct (probe_u32 pdev regs Hd) as [Hc Hf].
  revert Hc Hf. generalize (snd (probe pdev regs)).
  induction ops as [|o ops IH]; intros m Hc Hf; [split; assumption|].
  rewrite run_ops_cons.
  destruct (ops_u32_step o m Hc) as (Hc' & tr & Ht & Hf').
  apply IH; [exact Hc'|]. rewrite Ht. apply Forall_app. split; assumption.
Qed.

Lemma stores_fit_32_bits_witness :
  Forall stores_u32
    (trace (run_ops [OpSetTimeout 5000; OpStart; OpStop]
                    (snd (probe (ast2400_pdev 100) firmware_regs)))) /\
  0 <= ctrl (wdt (run_ops [OpSetTimeout 5000; OpStart; OpStop]
                          (snd (probe (ast2400_pdev 100) firmware_regs))))
    < 2 ^ 32.
Proof.
  apply (stores_fit_32_bits (ast2400_pdev 100) firmware_regs
           [OpSetTimeout 5000; OpStart; OpStop]).
  intros d H. injection H as <-. discriminate.
Defined.

(** ** How a probe ends *)


(** ** The control word, bit by bit *)

(** X14.  The control word a probe with memory and registers leaves in the
    driver structure, bit by bit: bit 0 (enable) is set when the control
    register was found enabled; bit 1 (system reset) when the reset type
    is absent or "system"; bit 3 (external signal) when the device tree
    asks for it; bit 4 (1 MHz clock) always; bit 9 when the reset type is
    "cpu"; and no other bit, so neither the interrupt flag (bit 2) nor
    bits 5 and 6. *)
Theorem probe_ctrl_bits
    (pdev : platform_device) (regs : gmap Z Z) (b i : Z) :
  devm_kzalloc_ok pdev = true ->
  devm_ioremap_resource pdev = inl b ->
  let np := of_node pdev in
  Z.testbit (ctrl (wdt (snd (probe pdev regs)))) i
  = (i =? 0) && enabled (reg regs (b + WDT_CTRL))
    || (i =? 1) && match aspeed_reset_type np with
                   | None => true
                   | Some s => String.eqb s "system"
                   end
    || (i =? 3) && aspeed_external_signal np
    || (i =? 4)
    || (i =? 9) && match aspeed_reset_type np with
                   | None => false
                   | Some s => String.eqb s "cpu"
                   end.
Proof.
  intros Hk Hb np. rewrite (probe_ctrl_eq pdev regs b Hk Hb). fold np.
  assert (Hbits : forall j,
    Z.testbit (reset_type_bits (aspeed_reset_type np)) j
    = (j =? 1) && match aspeed_reset_type np with
                  | None => true
                  | Some s => String.eqb s "system"
                  end
      || (j =? 9) && match aspeed_reset_type np with
                     | None => false
                     | Some s => String.eqb s "cpu"
                     end).
  { intros j. unfold reset_type_bits.
    change WDT_CTRL_RESET_SYSTEM with (BIT 1).
    change WDT_CTRL_RESET_MODE_ARM_CPU with (BIT 9).
    change WDT_CTRL_RESET_MODE_SOC with 0.
    destruct (aspeed_reset_type np) as [s|].
    - destruct (String.eqb_spec s "cpu") as [->|_].
      { rewrite testbit_BIT by lia. cbn. destruct (j =? 1), (j =? 9);
          reflexivity. }
      destruct (String.eqb_spec s "soc") as [->|_].
      { rewrite Z.bits_0. cbn. destruct (j =? 1), (j =? 9); reflexivity. }
      destruct (String.eqb s "system").
      + rewrite testbit_BIT by lia. destruct (j =? 1), (j =? 9); reflexivity.
      + rewrite Z.bits_0. destruct (j =? 1), (j =? 9); reflexivity.
    - rewrite testbit_BIT by lia. destruct (j =? 1), (j =? 9); reflexivity. }
  assert (Hc : Z.testbit (probe_ctrl np) i
               = (i =? 4) || Z.testbit (reset_type_bits (aspeed_reset_type np)) i
                 || (i =? 3) && aspeed_external_signal np).
  { unfold probe_ctrl. rewrite !Z.lor_spec.
    change WDT_CTRL_1MHZ_CLK with (BIT 4). rewrite testbit_BIT by lia.
    destruct (aspeed_external_signal np).
    - change WDT_CTRL_WDT_EXT with (BIT 3). rewrite testbit_BIT by lia.
      rewrite andb_true_r. reflexivity.
    - rewrite Z.bits_0, andb_false_r. reflexivity. }
  destruct (enabled (reg regs (b + WDT_CTRL))).
  - rewrite Z.lor_spec, Hc, Hbits.
    change WDT_CTRL_ENABLE with (BIT 0). rewrite testbit_BIT by lia.
    destruct (i =? 0), (i =? 1), (i =? 3), (i =? 4), (i =? 9),
      (aspeed_external_signal np), (aspeed_reset_type np) as [s|];
      try destruct (String.eqb s "system"); try destruct (String.eqb s "cpu");
      reflexivity.
  - rewrite Hc, Hbits.
    destruct (i =? 0), (i =? 1), (i =? 3), (i =? 4), (i =? 9),
      (aspeed_external_signal np), (aspeed_reset_type np) as [s|];
      try destruct (String.eqb s "system"); try destruct (String.eqb s "cpu");
      reflexivity.
Qed.

Lemma probe_ctrl_bits_witness :
  Z.testbit (ctrl (wdt (snd (probe ast2500_pdev firmware_regs)))) 9 = true /\
  Z.testbit (ctrl (wdt (snd (probe ast2500_pdev firmware_regs)))) 6 = false.
Proof.
  split.
  - exact (probe_ctrl_bits ast2500_pdev firmware_regs 0x1e785000 9
             eq_refl eq_refl).
  - exact (probe_ctrl_bits ast2500_pdev firmware_regs 0x1e785000 6
             eq_refl eq_refl).
Defined.
